(** * FormBridge Python SDK: the request/retry engine

    A shallow embedding of [formbridge/client.py], [formbridge/errors.py] and
    [formbridge/types.py], and the properties of the retry loop of
    [FormBridgeClient._request].

    Conventions of the embedding:
    - decoded JSON bodies are Python values ([pyval]); a [dict] is an
      association list in insertion order, read by its first binding;
    - Python [int] is [Z], Python [float] is the binary64 [float];
    - the HTTP transport is a script: the outcome of the k-th call to
      [self._http.request] made so far, as a function of k and the request;
    - the observable effects of a call (HTTP requests, log warnings, sleeps)
      are appended to a trace carried by the [world];
    - exceptions are values of [exn]; a computation that may raise returns
      [res]. Only subclasses of [Exception] are modelled. *)

From Stdlib Require Import List ZArith String Ascii Bool Floats Lia DecimalString.
Import ListNotations.
Open Scope string_scope.
Open Scope Z_scope.

(** ** Python values *)

#[local] Set Warnings "-register-all".

Inductive pyval : Type :=
| PNone
| PBool (b : bool)
| PInt (z : Z)
| PFloat (f : float)
| PStr (s : string)
| PList (l : list pyval)
| PDict (d : list (string * pyval)).

Definition dict := list (string * pyval).

(** [bool(v)] *)
Definition truthy (v : pyval) : bool :=
  match v with
  | PNone => false
  | PBool b => b
  | PInt z => negb (z =? 0)
  | PFloat f => negb (PrimFloat.eqb f 0%float)
  | PStr s => negb (String.eqb s "")
  | PList l => match l with [] => false | _ :: _ => true end
  | PDict d => match d with [] => false | _ :: _ => true end
  end.

(** [type(v).__name__] *)
Definition type_name (v : pyval) : string :=
  match v with
  | PNone => "NoneType"
  | PBool _ => "bool"
  | PInt _ => "int"
  | PFloat _ => "float"
  | PStr _ => "str"
  | PList _ => "list"
  | PDict _ => "dict"
  end.

(** [isinstance(v, dict)] *)
Definition is_dict (v : pyval) : bool :=
  match v with PDict _ => true | _ => false end.

(** [str(n)] for an [int] *)
Definition str_of_int (z : Z) : string := NilZero.string_of_int (Z.to_int z).

Fixpoint lookup (k : string) (d : dict) : option pyval :=
  match d with
  | [] => None
  | (k', v) :: d' => if String.eqb k k' then Some v else lookup k d'
  end.

(** [d.get(k, default)] on a dict *)
Definition dict_get (d : dict) (k : string) (default : pyval) : pyval :=
  match lookup k d with
  | Some v => v
  | None => default
  end.

(** [d[k] = v] *)
Fixpoint dict_set (d : dict) (k : string) (v : pyval) : dict :=
  match d with
  | [] => [(k, v)]
  | (k', v') :: d' =>
      if String.eqb k k' then (k', v) :: d' else (k', v') :: dict_set d' k v
  end.

(** [lst[:n]] *)
Definition slice_to {A : Type} (l : list A) (n : Z) : list A :=
  if n <? 0
  then firstn (Z.to_nat (Z.max 0 (Z.of_nat (List.length l) + n))) l
  else firstn (Z.to_nat n) l.

(** ** errors.py *)

Module FormBridgeError.
Record t : Type := mk {
  message : pyval;
  status_code : option Z;
  error_type : pyval;
  is_connectivity_error : bool;
  response_data : pyval
}.

(** [FormBridgeError(message, *, status_code=None, error_type=None,
    is_connectivity_error=False, response_data=None)] *)
Definition connectivity (msg : string) : t :=
  mk (PStr msg) None PNone true PNone.

Definition api (msg : pyval) (status : Z) (ty : pyval) (data : pyval) : t :=
  mk msg (Some status) ty false data.
End FormBridgeError.

(** ** Exceptions and results *)

(** What [self._http.request] can raise: the three classes the retry loop
    names ([TimeoutException] with its read, write and pool subclasses), or
    any other exception, given by its class name. *)
Inductive transport_error : Type :=
| ConnectError (msg : string)
| TimeoutException (msg : string)
| ConnectTimeout (msg : string)
| OtherError (cls msg : string).

Inductive exn : Type :=
| Transport (e : transport_error)
| JSONDecodeError (msg : string)
| AttributeError (msg : string)
| IndexError (msg : string)
| RuntimeError (msg : string)
| FormBridgeErr (e : FormBridgeError.t).

(** [str(exc)] *)
Definition exn_str (e : exn) : string :=
  match e with
  | Transport (ConnectError m) | Transport (TimeoutException m)
  | Transport (ConnectTimeout m) | Transport (OtherError _ m) => m
  | JSONDecodeError m | AttributeError m | IndexError m | RuntimeError m => m
  | FormBridgeErr e =>
      match FormBridgeError.message e with PStr m => m | _ => "" end
  end.

(** [except (httpx.ConnectError, httpx.TimeoutException, httpx.ConnectTimeout)] *)
Definition is_connection_exn (e : exn) : bool :=
  match e with
  | Transport (ConnectError _) | Transport (TimeoutException _)
  | Transport (ConnectTimeout _) => true
  | _ => false
  end.

Inductive res (A : Type) : Type :=
| Ok (a : A)
| Err (e : exn).
Arguments Ok {A} a.
Arguments Err {A} e.

Definition bind {A B : Type} (m : res A) (k : A -> res B) : res B :=
  match m with
  | Ok a => k a
  | Err e => Err e
  end.

Notation "x <- m ;; k" := (bind m (fun x => k))
  (at level 61, m at next level, right associativity).

(** [v.get(k, default)] on an arbitrary value: only a dict has [get]. *)
Definition py_get (v : pyval) (k : string) (default : pyval) : res pyval :=
  match v with
  | PDict d => Ok (dict_get d k default)
  | _ => Err (AttributeError ("'" ++ type_name v ++ "' object has no attribute 'get'"))
  end.

(** [l[i]] *)
Definition index {A : Type} (l : list A) (i : nat) : res A :=
  match nth_error l i with
  | Some a => Ok a
  | None => Err (IndexError "list index out of range")
  end.

(** ** types.py *)

Module Actor.
Record t : Type := mk {
  kind : string;
  id : string;
  name : option string
}.
End Actor.

Module Submission.
Record t : Type := mk {
  submission_id : pyval;
  intake_id : pyval;
  state : pyval;
  resume_token : pyval;
  fields : pyval;
  missing_fields : pyval;
  schema : pyval;
  created_at : pyval;
  updated_at : pyval;
  raw : pyval
}.

Definition from_response (data : pyval) : res t :=
  sid <- py_get data "submissionId" (PStr "") ;;
  iid <- py_get data "intakeId" (PStr "") ;;
  st <- py_get data "state" (PStr "") ;;
  tok <- py_get data "resumeToken" PNone ;;
  fs <- py_get data "fields" (PDict []) ;;
  mf <- py_get data "missingFields" PNone ;;
  sch <- py_get data "schema" PNone ;;
  md <- py_get data "metadata" PNone ;;
  cat <- (if is_dict md
          then (m <- py_get data "metadata" (PDict []) ;; py_get m "createdAt" PNone)
          else py_get data "createdAt" PNone) ;;
  md' <- py_get data "metadata" PNone ;;
  uat <- (if is_dict md'
          then (m <- py_get data "metadata" (PDict []) ;; py_get m "updatedAt" PNone)
          else py_get data "updatedAt" PNone) ;;
  Ok (mk sid iid st tok fs mf sch cat uat data).
End Submission.

Module FieldsResult.
Record t : Type := mk {
  submission_id : pyval;
  state : pyval;
  resume_token : pyval;
  missing_fields : pyval;
  raw : pyval
}.

Definition from_response (data : pyval) : res t :=
  sid <- py_get data "submissionId" (PStr "") ;;
  st <- py_get data "state" (PStr "") ;;
  tok <- py_get data "resumeToken" (PStr "") ;;
  mf <- py_get data "missingFields" PNone ;;
  Ok (mk sid st tok mf data).
End FieldsResult.

(** ** client.py: transport, world and module constants *)

Module Request.
Record t : Type := mk {
  method : string;
  path : string;
  json : pyval
}.
End Request.

Inductive json_result : Type :=
| Decoded (data : pyval)
| Undecodable (msg : string).

Module Response.
Record t : Type := mk {
  status_code : Z;
  body : json_result
}.

(** [resp.json()] *)
Definition json (r : t) : res pyval :=
  match body r with
  | Decoded data => Ok data
  | Undecodable msg => Err (JSONDecodeError msg)
  end.
End Response.

Inductive http_outcome : Type :=
| Responded (r : Response.t)
| Failed (e : transport_error).

(** The outcome of the k-th request issued so far. *)
Definition transport := nat -> Request.t -> http_outcome.

Inductive warning : Type :=
| WarnStatus (status : Z) (attempt total : nat) (backoff : float)
| WarnConnection (attempt total : nat) (exc : string) (backoff : float).

Inductive event : Type :=
| EvRequest (r : Request.t)
| EvWarning (w : warning)
| EvSleep (d : float).

Record world : Type := mkWorld {
  calls : nat;
  trace : list event
}.

Definition fresh : world := mkWorld 0 [].

Definition emit (e : event) (w : world) : world :=
  mkWorld (calls w) (trace w ++ [e])%list.

(** [await self._http.request(method, path, json=json_data)] *)
Definition http_request (http : transport) (rq : Request.t) (w : world)
  : http_outcome * world :=
  (http (calls w) rq, mkWorld (S (calls w)) (trace w ++ [EvRequest rq])%list).

(** [logger.warning(...)] *)
Definition log_warning (m : warning) (w : world) : world := emit (EvWarning m) w.

(** [await asyncio.sleep(d)] *)
Definition sleep (d : float) (w : world) : world := emit (EvSleep d) w.

Definition _RETRY_BACKOFFS : list float := [0.5%float; 1.0%float; 2.0%float].
Definition _RETRYABLE_STATUS : list Z := [429; 500; 502; 503; 504].

Definition retryable (status : Z) : bool :=
  existsb (Z.eqb status) _RETRYABLE_STATUS.

(** [_serialize_actor] *)
Definition _serialize_actor (actor : option Actor.t) : pyval :=
  match actor with
  | None => PNone
  | Some a =>
      let d := [("kind", PStr (Actor.kind a)); ("id", PStr (Actor.id a))] in
      match Actor.name a with
      | Some n => PDict (dict_set d "name" (PStr n))
      | None => PDict d
      end
  end.

(** ** client.py: FormBridgeClient *)

(** One pass through the body of the retry loop ends in one of three ways. *)
Inductive flow : Type :=
| Return (data : pyval)
| Raise (e : exn)
| Continue.

Module FormBridgeClient.
Record t : Type := mk {
  _max_retries : Z;
  _http : transport
}.

Section Request.
Variable self : t.
(** The value of the module global [_RETRY_BACKOFFS] when the call is made. *)
Variable retry_backoffs : list float.
Variable rq : Request.t.

Definition backoffs : list float := slice_to retry_backoffs (_max_retries self).

(** Lines 252-263: decode the body, then raise the API error or return. *)
Definition decode (resp : Response.t) : res pyval :=
  let status := Response.status_code resp in
  data <- Response.json resp ;;
  if status >=? 400 then
    info <- (if is_dict data then py_get data "error" (PDict []) else Ok (PDict [])) ;;
    msg <- py_get info "message" (PStr ("HTTP " ++ str_of_int status)) ;;
    ty <- py_get info "type" PNone ;;
    Err (FormBridgeErr (FormBridgeError.api msg status ty data))
  else Ok data.

(** The [try] block of the loop body, lines 239-263: [inr tt] stands for
    [continue]. *)
Definition try_block (attempt : nat) (w : world) : (res pyval + unit) * world :=
  let '(out, w1) := http_request (_http self) rq w in
  match out with
  | Failed e => (inl (Err (Transport e)), w1)
  | Responded resp =>
      let status := Response.status_code resp in
      if retryable status && (attempt <? List.length backoffs)%nat then
        match index backoffs attempt with
        | Err e => (inl (Err e), w1)
        | Ok b =>
            let w2 := log_warning
              (WarnStatus status (attempt + 1) (List.length backoffs + 1) b) w1 in
            (inr tt, sleep b w2)
        end
      else (inl (decode resp), w1)
  end.

(** The loop body with its [except] clauses, lines 238-287. The second
    component is the new value of [last_exc]. *)
Definition loop_body (attempt : nat) (last_exc : option exn) (w : world)
  : flow * option exn * world :=
  match try_block attempt w with
  | (inr tt, w') => (Continue, last_exc, w')
  | (inl (Ok data), w') => (Return data, last_exc, w')
  | (inl (Err (FormBridgeErr e)), w') => (Raise (FormBridgeErr e), last_exc, w')
  | (inl (Err exc), w') =>
      if is_connection_exn exc then
        if (attempt <? List.length backoffs)%nat then
          match index backoffs attempt with
          | Err e => (Raise e, Some exc, w')
          | Ok b =>
              let w2 := log_warning
                (WarnConnection (attempt + 1) (List.length backoffs + 1) (exn_str exc) b) w' in
              (Continue, Some exc, sleep b w2)
          end
        else
          (Raise (FormBridgeErr (FormBridgeError.connectivity
                    ("Connection failed: " ++ exn_str exc))), Some exc, w')
      else
        (Raise (FormBridgeErr (FormBridgeError.connectivity
                  ("Unexpected error: " ++ exn_str exc))), last_exc, w')
  end.

(** [for attempt in attempts: ...]; [None] when the loop runs to its end
    without a [return] or a [raise]. *)
Fixpoint for_attempts (attempts : list nat) (last_exc : option exn) (w : world)
  : option (res pyval) * option exn * world :=
  match attempts with
  | [] => (None, last_exc, w)
  | attempt :: rest =>
      match loop_body attempt last_exc w with
      | (Return data, le, w') => (Some (Ok data), le, w')
      | (Raise e, le, w') => (Some (Err e), le, w')
      | (Continue, le, w') => for_attempts rest le w'
      end
  end.

(** [range(1 + len(backoffs))] *)
Definition attempts_range : list nat := seq 0 (1 + List.length backoffs).

(** The code after the loop, lines 289-295. *)
Definition after_loop (last_exc : option exn) : res pyval :=
  match last_exc with
  | Some exc =>
      Err (FormBridgeErr (FormBridgeError.connectivity
             ("Connection failed after retries: " ++ exn_str exc)))
  | None => Err (RuntimeError "Retry loop exhausted unexpectedly")
  end.

Definition _request (w : world) : res pyval * world :=
  match for_attempts attempts_range None w with
  | (Some r, _, w') => (r, w')
  | (None, last_exc, w') => (after_loop last_exc, w')
  end.
End Request.

(** The request body of [create_submission], lines 110-116. *)
Definition create_body (fields : option dict) (actor : option Actor.t)
    (idempotency_key : option string) : dict :=
  let body : dict := [] in
  let body :=
    match fields with
    | Some ((_ :: _) as f) => dict_set body "fields" (PDict f)
    | _ => body
    end in
  let body :=
    match actor with
    | Some _ => dict_set body "actor" (_serialize_actor actor)
    | None => body
    end in
  match idempotency_key with
  | Some k => if truthy (PStr k) then dict_set body "idempotencyKey" (PStr k) else body
  | None => body
  end.

(** [create_submission], lines 118-134. *)
Definition create_submission (self : t) (retry_backoffs : list float)
    (intake_id : string) (fields : option dict) (actor : option Actor.t)
    (idempotency_key : option string) (w : world)
  : res Submission.t * world :=
  let rq := Request.mk "POST" ("/intake/" ++ intake_id ++ "/submissions")
              (PDict (create_body fields actor idempotency_key)) in
  match _request self retry_backoffs rq w with
  | (Err e, w') => (Err e, w')
  | (Ok data, w') =>
      (sub <- Submission.from_response data ;;
       if negb (truthy (Submission.intake_id sub)) then
         Ok (Submission.mk
               (Submission.submission_id sub)
               (PStr intake_id)
               (Submission.state sub)
               (Submission.resume_token sub)
               (Submission.fields sub)
               (Submission.missing_fields sub)
               (Submission.schema sub)
               (Submission.created_at sub)
               (Submission.updated_at sub)
               (Submission.raw sub))
       else Ok sub, w')
  end.

(** [get_submission], lines 219-222. *)
Definition get_submission (self : t) (retry_backoffs : list float)
    (intake_id submission_id : string) (w : world)
  : res Submission.t * world :=
  let rq := Request.mk "GET"
              ("/intake/" ++ intake_id ++ "/submissions/" ++ submission_id) PNone in
  match _request self retry_backoffs rq w with
  | (Err e, w') => (Err e, w')
  | (Ok data, w') => (Submission.from_response data, w')
  end.

(** The request body of [set_fields], lines 159-164. *)
Definition set_fields_body (resume_token : string) (fields : dict)
    (actor : option Actor.t) : dict :=
  let body : dict := [("resumeToken", PStr resume_token); ("fields", PDict fields)] in
  match actor with
  | Some _ => dict_set body "actor" (_serialize_actor actor)
  | None => body
  end.

(** [set_fields], lines 159-169. *)
Definition set_fields (self : t) (retry_backoffs : list float)
    (intake_id submission_id resume_token : string) (fields : dict)
    (actor : option Actor.t) (w : world)
  : res FieldsResult.t * world :=
  let rq := Request.mk "PATCH"
              ("/intake/" ++ intake_id ++ "/submissions/" ++ submission_id)
              (PDict (set_fields_body resume_token fields actor)) in
  match _request self retry_backoffs rq w with
  | (Err e, w') => (Err e, w')
  | (Ok data, w') => (FieldsResult.from_response data, w')
  end.

(** The request body of [submit], lines 193-195. *)
Definition submit_body (resume_token : string) (actor : option Actor.t) : dict :=
  let body : dict := [("resumeToken", PStr resume_token)] in
  match actor with
  | Some _ => dict_set body "actor" (_serialize_actor actor)
  | None => body
  end.

(** [submit], lines 193-200. *)
Definition submit (self : t) (retry_backoffs : list float)
    (intake_id submission_id resume_token : string)
    (actor : option Actor.t) (w : world)
  : res Submission.t * world :=
  let rq := Request.mk "POST"
              ("/intake/" ++ intake_id ++ "/submissions/" ++ submission_id ++ "/submit")
              (PDict (submit_body resume_token actor)) in
  match _request self retry_backoffs rq w with
  | (Err e, w') => (Err e, w')
  | (Ok data, w') => (Submission.from_response data, w')
  end.
End FormBridgeClient.

Import FormBridgeClient.

(** ** client.py: the constructor *)

(** [s.rstrip("/")] *)
Fixpoint rstrip_slash (s : string) : string :=
  match s with
  | EmptyString => EmptyString
  | String c s' =>
      match rstrip_slash s' with
      | EmptyString => if Ascii.eqb c "/" then EmptyString else String c EmptyString
      | r => String c r
      end
  end.

(** [a or b] on strings: the empty string is falsy. *)
Definition str_or (a b : string) : string :=
  if String.eqb a "" then b else a.

Definition _DEFAULT_URL : string := "http://localhost:3000".
Definition _DEFAULT_TIMEOUT : float := 10%float.

Module Construction.
(** What [FormBridgeClient.__init__] sets, with the headers it hands to the
    HTTP client. *)
Record t : Type := mk {
  _url : string;
  _api_key : string;
  _timeout : float;
  _max_retries : Z;
  headers : list (string * string)
}.

Section Init.
(** [os.environ.get], and [float] on a string ([None]: it raises ValueError). *)
Variable environ : string -> option string.
Variable float_of_str : string -> option float.

Definition environ_get (k default : string) : string :=
  match environ k with
  | Some v => v
  | None => default
  end.

(** [__init__], lines 60-74; [None] when [float(raw_timeout)] raises. An
    absent argument is [None], and [max_retries] defaults to 3 at the call. *)
Definition __init__ (url api_key : option string) (timeout : option float)
    (max_retries : Z) : option t :=
  let url_ :=
    rstrip_slash
      (str_or (match url with Some u => u | None => "" end)
              (environ_get "FORMBRIDGE_URL" _DEFAULT_URL)) in
  let key := str_or (match api_key with Some k => k | None => "" end)
                    (environ_get "FORMBRIDGE_API_KEY" "") in
  let timeout_ :=
    match timeout with
    | Some t => Some t
    | None =>
        match environ "FORMBRIDGE_TIMEOUT" with
        | Some raw => float_of_str raw
        | None => Some _DEFAULT_TIMEOUT
        end
    end in
  let hdrs := [("Content-Type", "application/json")] in
  let hdrs :=
    if negb (String.eqb key "")
    then (hdrs ++ [("Authorization", String.append "Bearer " key)])%list
    else hdrs in
  match timeout_ with
  | Some t => Some (mk url_ key t max_retries hdrs)
  | None => None
  end.
End Init.
End Construction.

(** ** Observations on a finished call *)

(** Number of HTTP attempts recorded in a trace. *)
Fixpoint attempts_made (tr : list event) : nat :=
  match tr with
  | [] => 0
  | EvRequest _ :: tr' => S (attempts_made tr')
  | _ :: tr' => attempts_made tr'
  end.

(** The sleeps recorded in a trace, in order. *)
Fixpoint sleeps (tr : list event) : list float :=
  match tr with
  | [] => []
  | EvSleep d :: tr' => d :: sleeps tr'
  | _ :: tr' => sleeps tr'
  end.

(** What kind of event happened, without its payload. *)
Inductive shape : Type :=
| SRequest
| SWarning
| SSleep (d : float).

Definition shape_of (e : event) : shape :=
  match e with
  | EvRequest _ => SRequest
  | EvWarning _ => SWarning
  | EvSleep d => SSleep d
  end.

(** A retry round: the failed attempt, its warning, the backoff sleep. *)
Definition retry_round (b : float) : list shape := [SRequest; SWarning; SSleep b].

(** The trace of a call that retried [j] times and then ended. *)
Definition retried (bs : list float) : list shape :=
  (List.concat (map retry_round bs) ++ [SRequest])%list.

(** [attempts_made] and [sleeps] only depend on the shapes of the events. *)
Fixpoint shape_requests (ss : list shape) : nat :=
  match ss with
  | [] => 0
  | SRequest :: ss' => S (shape_requests ss')
  | _ :: ss' => shape_requests ss'
  end.

Fixpoint shape_sleeps (ss : list shape) : list float :=
  match ss with
  | [] => []
  | SSleep d :: ss' => d :: shape_sleeps ss'
  | _ :: ss' => shape_sleeps ss'
  end.

(** ** How an attempt ends *)

(** Does the loop go round again after this outcome, when a backoff is left? *)
Definition will_retry (out : http_outcome) : bool :=
  match out with
  | Responded r => retryable (Response.status_code r)
  | Failed e => is_connection_exn (Transport e)
  end.

(** The error raised for an exception that no retry follows. *)
Definition wrapped (exc : exn) : exn :=
  match exc with
  | FormBridgeErr e => FormBridgeErr e
  | _ =>
      FormBridgeErr (FormBridgeError.connectivity
        ((if is_connection_exn exc then "Connection failed: " else "Unexpected error: ")
           ++ exn_str exc))
  end.

(** The terminal outcome of the call when this attempt is its last one. *)
Definition settle (out : http_outcome) : res pyval :=
  match out with
  | Failed e => Err (wrapped (Transport e))
  | Responded r =>
      match decode r with
      | Ok data => Ok data
      | Err exc => Err (wrapped exc)
      end
  end.

Definition flow_of (r : res pyval) : flow :=
  match r with
  | Ok data => Return data
  | Err e => Raise e
  end.

(** The body follows the wire protocol: it decodes, and its [error] entry, if
    any, is an object. *)
Definition envelope_ok (r : Response.t) : bool :=
  match Response.body r with
  | Undecodable _ => false
  | Decoded (PDict d) => is_dict (dict_get d "error" (PDict []))
  | Decoded _ => true
  end.

(** The world after one more request, and after a whole retry round. *)
Definition after_request (rq : Request.t) (w : world) : world :=
  mkWorld (S (calls w)) (trace w ++ [EvRequest rq])%list.

Definition after_retry (rq : Request.t) (m : warning) (b : float) (w : world)
  : world :=
  mkWorld (S (calls w)) (trace w ++ [EvRequest rq; EvWarning m; EvSleep b])%list.

(** The [error] sub-object of a decoded body, empty when there is none. *)
Definition error_info (data : pyval) : dict :=
  match data with
  | PDict d => match dict_get d "error" (PDict []) with PDict i => i | _ => [] end
  | _ => []
  end.

(** [created_at] and [updated_at]: read under [metadata] when that is an
    object, at the top level otherwise. *)
Definition timestamp (d : dict) (key : string) : pyval :=
  match dict_get d "metadata" PNone with
  | PDict m => dict_get m key PNone
  | _ => dict_get d key PNone
  end.

(** The decoded body omits the intake identifier: it has no [intakeId]
    entry, or an empty one. *)
Definition omits_intake_id (d : dict) : Prop :=
  lookup "intakeId" d = None \/
  exists v, lookup "intakeId" d = Some v /\ truthy v = false.

(** ** Scenarios of the test suite and of the counterexamples *)

(** The request of [get_submission("v", "s1")]. *)
Definition rq0 : Request.t := Request.mk "GET" "/intake/v/submissions/s1" PNone.

(** A transport that answers from a list, then keeps giving [last]. *)
Definition scripted (outs : list http_outcome) (last : http_outcome) : transport :=
  fun k _ => nth k outs last.

Definition bad_gateway : http_outcome :=
  Responded (Response.mk 502 (Decoded (PDict
    [("ok", PBool false);
     ("error", PDict [("type", PStr "bad_gateway"); ("message", PStr "down")])]))).

Definition rate_limited : http_outcome :=
  Responded (Response.mk 429 (Decoded (PDict
    [("ok", PBool false); ("error", PDict [("type", PStr "rate_limited")])]))).

Definition s1_body : pyval := PDict [("submissionId", PStr "s1")].
Definition s1_response : Response.t := Response.mk 200 (Decoded s1_body).
Definition ok_s1 : http_outcome := Responded s1_response.

Definition refused : http_outcome := Failed (ConnectError "Connection refused").

Definition unauthorized : http_outcome :=
  Responded (Response.mk 401 (Decoded (PDict
    [("ok", PBool false);
     ("error", PDict [("type", PStr "unauthorized"); ("message", PStr "bad key")])]))).

(** A 502 response whose body is not JSON, as a gateway's error page. *)
Definition bad_gateway_html : http_outcome :=
  Responded (Response.mk 502
    (Undecodable "Expecting value: line 1 column 1 (char 0)")).

(** A 401 response whose body is not JSON. *)
Definition unauthorized_html : http_outcome :=
  Responded (Response.mk 401
    (Undecodable "Expecting value: line 1 column 1 (char 0)")).

(** One 502 response, then the connection is refused. *)
Definition gateway_then_refused : transport := scripted [bad_gateway] refused.

(** A 400 response whose [error] entry is a string, not an object. *)
Definition error_is_string : http_outcome :=
  Responded (Response.mk 400 (Decoded (PDict [("error", PStr "oops")]))).

(** The response of the create test: no [intakeId] in the body. *)
Definition created_body : dict :=
  [("ok", PBool true); ("submissionId", PStr "sub_123");
   ("state", PStr "in_progress"); ("resumeToken", PStr "tok_abc");
   ("schema", PDict [("type", PStr "object")]);
   ("missingFields", PList [PStr "email"])].

Definition created : http_outcome :=
  Responded (Response.mk 201 (Decoded (PDict created_body))).

(** ** The full trace of a call *)

(** The requests recorded in a trace, in order. *)
Fixpoint requests (tr : list event) : list Request.t :=
  match tr with
  | [] => []
  | EvRequest r :: tr' => r :: requests tr'
  | _ :: tr' => requests tr'
  end.

(** The warnings recorded in a trace, in order. *)
Fixpoint warnings (tr : list event) : list warning :=
  match tr with
  | [] => []
  | EvWarning m :: tr' => m :: warnings tr'
  | _ :: tr' => warnings tr'
  end.

(** The warning logged when attempt [i] ended in [out] and is retried after
    a sleep of [b]. *)
Definition warning_of (out : http_outcome) (i total : nat) (b : float) : warning :=
  match out with
  | Responded r => WarnStatus (Response.status_code r) (i + 1) total b
  | Failed te => WarnConnection (i + 1) total (exn_str (Transport te)) b
  end.

(** What retried attempt [i] leaves in the trace. *)
Definition retry_events (http : transport) (rq : Request.t) (total : nat)
    (tb : list float) (i : nat) : list event :=
  let b := nth i tb 0%float in
  [EvRequest rq; EvWarning (warning_of (http i rq) i total b); EvSleep b].

(** The trace of a call that retried attempts 0 to [j - 1] and ended at
    attempt [j]. *)
Definition call_trace (http : transport) (rq : Request.t) (total : nat)
    (tb : list float) (j : nat) : list event :=
  (List.concat (map (retry_events http rq total tb) (seq 0 j)) ++ [EvRequest rq])%list.

(** The time a call spends in [asyncio.sleep], in seconds. *)
Definition total_sleep (tr : list event) : float :=
  fold_left PrimFloat.add (sleeps tr) 0%float.

(** ** Strings *)

(** [n] slashes. *)
Fixpoint slashes (n : nat) : string :=
  match n with
  | O => EmptyString
  | S n' => String "/" (slashes n')
  end.

(** [s.endswith("/")] *)
Fixpoint ends_with_slash (s : string) : bool :=
  match s with
  | EmptyString => false
  | String c EmptyString => Ascii.eqb c "/"
  | String _ s' => ends_with_slash s'
  end.

(** The keys of a dict, in order. *)
Definition keys (d : dict) : list string := map fst d.

(** The request each operation sends. *)
Definition create_request (intake_id : string) (fields : option dict)
    (actor : option Actor.t) (idempotency_key : option string) : Request.t :=
  Request.mk "POST" ("/intake/" ++ intake_id ++ "/submissions")
    (PDict (create_body fields actor idempotency_key)).

Definition get_request (intake_id submission_id : string) : Request.t :=
  Request.mk "GET" ("/intake/" ++ intake_id ++ "/submissions/" ++ submission_id) PNone.

Definition set_fields_request (intake_id submission_id resume_token : string)
    (fields : dict) (actor : option Actor.t) : Request.t :=
  Request.mk "PATCH" ("/intake/" ++ intake_id ++ "/submissions/" ++ submission_id)
    (PDict (set_fields_body resume_token fields actor)).

Definition submit_request (intake_id submission_id resume_token : string)
    (actor : option Actor.t) : Request.t :=
  Request.mk "POST"
    ("/intake/" ++ intake_id ++ "/submissions/" ++ submission_id ++ "/submit")
    (PDict (submit_body resume_token actor)).

(** ** Further scenarios *)

(** The connection is reset while the response is read. *)
Definition read_error : http_outcome :=
  Failed (OtherError "ReadError" "Connection reset by peer").

(** A 204 response: no body to decode. *)
Definition no_content : http_outcome :=
  Responded (Response.mk 204 (Undecodable "Expecting value: line 1 column 1 (char 0)")).

(** A 200 response whose body is the empty JSON list. *)
Definition ok_empty_list : http_outcome :=
  Responded (Response.mk 200 (Decoded (PList []))).

(** The server answers a create with another intake's identifier. *)
Definition created_elsewhere : http_outcome :=
  Responded (Response.mk 201 (Decoded (PDict
    [("submissionId", PStr "sub_1"); ("intakeId", PStr "vendor-v2")]))).

(** An environment that sets the URL, with trailing slashes, and the key. *)
Definition example_environ : string -> option string :=
  fun k =>
    if String.eqb k "FORMBRIDGE_URL" then Some "http://api.example.com//"
    else if String.eqb k "FORMBRIDGE_API_KEY" then Some "test-key"
    else None.

(** A [float] that accepts nothing. *)
Definition no_float : string -> option float := fun _ => None.

(** ** Lemmas *)

Lemma attempts_made_shapes (tr : list event) :
  attempts_made tr = shape_requests (map shape_of tr).
Proof.
  induction tr as [|e tr IH]; [reflexivity|].
  destruct e; simpl; now rewrite IH.
Qed.

Lemma sleeps_shapes (tr : list event) :
  sleeps tr = shape_sleeps (map shape_of tr).
Proof.
  induction tr as [|e tr IH]; [reflexivity|].
  destruct e; simpl; now rewrite IH.
Qed.

Lemma shape_requests_retried (bs : list float) :
  shape_requests (retried bs) = S (List.length bs).
Proof.
  unfold retried. induction bs as [|b bs IH]; [reflexivity|].
  simpl. now rewrite IH.
Qed.

Lemma shape_sleeps_retried (bs : list float) :
  shape_sleeps (retried bs) = bs.
Proof.
  unfold retried. induction bs as [|b bs IH]; [reflexivity|].
  simpl. now rewrite IH.
Qed.

Lemma retried_cons (b : float) (bs : list float) :
  retried (b :: bs) = (retry_round b ++ retried bs)%list.
Proof. reflexivity. Qed.

Lemma slice_to_nonneg {A : Type} (l : list A) (n : Z) :
  0 <= n -> slice_to l n = firstn (Z.to_nat n) l.
Proof.
  intros Hn. unfold slice_to.
  destruct (n <? 0) eqn:E; [apply Z.ltb_lt in E; lia | reflexivity].
Qed.

Lemma slice_to_length_nonneg {A : Type} (l : list A) (n : Z) :
  0 <= n -> List.length (slice_to l n) = Nat.min (Z.to_nat n) (List.length l).
Proof.
  intros Hn. rewrite slice_to_nonneg by assumption. apply length_firstn.
Qed.

Lemma index_in_range {A : Type} (l : list A) (i : nat) :
  (i < List.length l)%nat -> exists a, nth_error l i = Some a /\ index l i = Ok a.
Proof.
  intros Hi. unfold index.
  destruct (nth_error l i) as [a|] eqn:E.
  - exists a. split; reflexivity.
  - apply nth_error_None in E. lia.
Qed.

Lemma retryable_ge_400 (status : Z) : retryable status = true -> 400 <= status.
Proof.
  unfold retryable, _RETRYABLE_STATUS. simpl.
  rewrite !orb_true_iff, !Z.eqb_eq. lia.
Qed.

Lemma retryable_iff (status : Z) :
  retryable status = true <->
  status = 429 \/ status = 500 \/ status = 502 \/ status = 503 \/ status = 504.
Proof.
  unfold retryable, _RETRYABLE_STATUS. simpl.
  rewrite !orb_true_iff, !Z.eqb_eq. intuition congruence.
Qed.

(** What [decode] can raise: never a transport error. *)
Lemma decode_raises (r : Response.t) (exc : exn) :
  decode r = Err exc ->
  (exists m, exc = JSONDecodeError m /\ Response.body r = Undecodable m) \/
  (exists m data, exc = AttributeError m /\ Response.body r = Decoded data /\
                  envelope_ok r = false) \/
  (exists e data, exc = FormBridgeErr e /\ Response.body r = Decoded data /\
             400 <= Response.status_code r /\
             FormBridgeError.status_code e = Some (Response.status_code r) /\
             FormBridgeError.is_connectivity_error e = false /\
             FormBridgeError.response_data e = data).
Proof.
  unfold decode, Response.json, envelope_ok.
  destruct (Response.body r) as [data|m] eqn:Hb; simpl.
  2:{ intros H. inversion H. left. eauto. }
  destruct (Response.status_code r >=? 400) eqn:Hs; [|discriminate].
  assert (400 <= Response.status_code r) by (apply Z.geb_le in Hs; lia).
  destruct data as [| | | | | |d]; simpl;
    try (intros H'; inversion H'; right; right; eexists; eexists;
         repeat split; try reflexivity; assumption).
  destruct (dict_get d "error" (PDict [])) as [| | | | | |d'] eqn:Hd; simpl;
    intros H'; inversion H';
    try (right; left; eexists; eexists; repeat split; reflexivity).
  right; right; eexists; eexists; repeat split; try reflexivity; assumption.
Qed.

Lemma decode_not_connection (r : Response.t) (exc : exn) :
  decode r = Err exc -> is_connection_exn exc = false.
Proof.
  intros H. apply decode_raises in H.
  destruct H as [(m & -> & _) | [(m & d & -> & _) | (e & d & -> & _)]]; reflexivity.
Qed.

Lemma skipn_cons_nth_error {A : Type} (l : list A) (k : nat) (a : A) :
  nth_error l k = Some a -> skipn k l = a :: skipn (S k) l.
Proof.
  revert l. induction k as [|k IH]; intros [|x l] H; simpl in H; try discriminate.
  - now inversion H.
  - simpl. rewrite (IH l H). reflexivity.
Qed.

Section Engine.
Variable self : FormBridgeClient.t.
Variable tb : list float.
Variable rq : Request.t.

Let bs : list float := backoffs self tb.
Let http : transport := _http self.

(** A retryable outcome with a backoff left: warn, sleep, [continue]. *)
Lemma loop_body_retry (a : nat) (le : option exn) (w : world) (b : float) :
  nth_error bs a = Some b ->
  will_retry (http (calls w) rq) = true ->
  exists m le',
    loop_body self tb rq a le w = (Continue, le', after_retry rq m b w).
Proof.
  intros Hb Hr.
  assert (Ha : (a <? List.length bs)%nat = true).
  { apply Nat.ltb_lt. apply nth_error_Some. congruence. }
  unfold loop_body, try_block, http_request. fold http. fold bs.
  destruct (http (calls w) rq) as [r|e] eqn:Ho; simpl in Hr.
  - rewrite Hr, Ha. simpl. unfold index. rewrite Hb.
    eexists. exists le. unfold after_retry, sleep, log_warning, emit. simpl.
    rewrite <- !app_assoc. reflexivity.
  - destruct e; simpl in Hr; try discriminate; simpl;
      rewrite Ha; unfold index; rewrite Hb;
      eexists; eexists; unfold after_retry, sleep, log_warning, emit; simpl;
      rewrite <- !app_assoc; reflexivity.
Qed.

(** No backoff left, or an outcome that is not retried: the call ends. *)
Lemma loop_body_final (a : nat) (le : option exn) (w : world) :
  (List.length bs <= a)%nat \/ will_retry (http (calls w) rq) = false ->
  exists le',
    loop_body self tb rq a le w =
    (flow_of (settle (http (calls w) rq)), le', after_request rq w).
Proof.
  intros H.
  unfold loop_body, try_block, http_request. fold http. fold bs.
  destruct (http (calls w) rq) as [r|e] eqn:Ho; simpl in H |- *.
  - assert (Hg : retryable (Response.status_code r) && (a <? List.length bs)%nat = false).
    { destruct H as [H|H].
      - apply Nat.ltb_ge in H. rewrite H. apply andb_false_r.
      - rewrite H. reflexivity. }
    rewrite Hg.
    destruct (decode r) as [data|exc] eqn:Hd.
    + exists le. reflexivity.
    + pose proof (decode_not_connection _ _ Hd) as Hn.
      destruct exc; simpl in Hn |- *; try discriminate;
        try (exists le; reflexivity).
      destruct e; simpl in Hn; try discriminate. exists le. reflexivity.
  - destruct e; simpl in H |- *;
      try (destruct H as [H|H]; [|discriminate];
           apply Nat.ltb_ge in H; rewrite H; eexists; reflexivity).
    eexists; reflexivity.
Qed.

(** The loop started at attempt [k] retries [j] times and then ends in the
    terminal outcome of attempt [k + j]; it never runs off its range. *)
Lemma loop_runs (m : nat) :
  forall (k : nat) (le : option exn) (w : world),
    (k + m = S (List.length bs))%nat -> (1 <= m)%nat ->
    exists (j : nat) (le' : option exn) (w' : world),
      (k + j <= List.length bs)%nat /\
      (forall i, (i < j)%nat -> will_retry (http (calls w + i)%nat rq) = true) /\
      ((k + j)%nat = List.length bs \/ will_retry (http (calls w + j)%nat rq) = false) /\
      for_attempts self tb rq (seq k m) le w =
        (Some (settle (http (calls w + j)%nat rq)), le', w') /\
      calls w' = (calls w + j + 1)%nat /\
      map shape_of (trace w') =
        (map shape_of (trace w) ++ retried (firstn j (skipn k bs)))%list.
Proof.
  induction m as [|m IH]; intros k le w Hk Hm; [lia|].
  destruct (will_retry (http (calls w) rq) && (k <? List.length bs)%nat) eqn:Hgo.
  - apply andb_true_iff in Hgo. destruct Hgo as [Hr Hlt].
    apply Nat.ltb_lt in Hlt.
    destruct (index_in_range bs k Hlt) as (b & Hb & _).
    destruct (loop_body_retry k le w b Hb Hr) as (wm & le1 & Hbody).
    destruct (IH (S k) le1 (after_retry rq wm b w)) as
      (j & le' & w' & Hj & Hall & Hstop & Hrun & Hcalls & Htrace); [lia | lia |].
    exists (S j), le', w'. simpl calls in *.
    repeat split.
    + lia.
    + intros i Hi. destruct i as [|i].
      * now rewrite Nat.add_0_r.
      * replace (calls w + S i)%nat with (S (calls w) + i)%nat by lia.
        apply Hall. lia.
    + replace (k + S j)%nat with (S k + j)%nat by lia.
      replace (calls w + S j)%nat with (S (calls w) + j)%nat by lia.
      exact Hstop.
    + simpl seq. simpl for_attempts. fold bs. rewrite Hbody.
      replace (calls w + S j)%nat with (S (calls w) + j)%nat by lia.
      exact Hrun.
    + lia.
    + rewrite Htrace. simpl trace.
      rewrite (skipn_cons_nth_error bs k b Hb).
      rewrite firstn_cons, retried_cons.
      rewrite map_app, <- app_assoc. reflexivity.
  - assert (Hfin : (List.length bs <= k)%nat \/ will_retry (http (calls w) rq) = false).
    { apply andb_false_iff in Hgo. destruct Hgo as [H|H]; [now right|].
      left. now apply Nat.ltb_ge in H. }
    destruct (loop_body_final k le w Hfin) as (le' & Hbody).
    exists 0%nat, le', (after_request rq w).
    rewrite !Nat.add_0_r. repeat split.
    + lia.
    + intros i Hi. lia.
    + destruct Hfin as [H|H]; [left; lia | now right].
    + simpl seq. simpl for_attempts. fold bs. rewrite Hbody.
      destruct (settle (http (calls w) rq)); reflexivity.
    + simpl. lia.
    + simpl trace. rewrite map_app. reflexivity.
Qed.
End Engine.

(** The truncated backoffs are a prefix of the module's table. *)
Lemma backoffs_prefix (self : FormBridgeClient.t) (tb : list float) :
  exists N, backoffs self tb = firstn N tb.
Proof.
  unfold backoffs, slice_to.
  destruct (_max_retries self <? 0); eexists; reflexivity.
Qed.

Lemma firstn_backoffs (self : FormBridgeClient.t) (tb : list float) (j : nat) :
  (j <= List.length (backoffs self tb))%nat ->
  firstn j (backoffs self tb) = firstn j tb.
Proof.
  destruct (backoffs_prefix self tb) as (N & ->). intros Hj.
  rewrite length_firstn in Hj. rewrite firstn_firstn.
  f_equal. lia.
Qed.

Lemma backoffs_nonneg (self : FormBridgeClient.t) (tb : list float) :
  0 <= _max_retries self ->
  List.length (backoffs self tb) = Nat.min (Z.to_nat (_max_retries self)) (List.length tb).
Proof. intros H. unfold backoffs. now apply slice_to_length_nonneg. Qed.

(** Every call ends inside the loop: after [j] retries, in the terminal
    outcome of attempt [j]. *)
Theorem request_runs (self : FormBridgeClient.t) (tb : list float)
    (rq : Request.t) (w : world) :
  exists (j : nat) (le : option exn) (w' : world),
    (j <= List.length (backoffs self tb))%nat /\
    (forall i, (i < j)%nat -> will_retry (_http self (calls w + i)%nat rq) = true) /\
    (j = List.length (backoffs self tb) \/
     will_retry (_http self (calls w + j)%nat rq) = false) /\
    for_attempts self tb rq (attempts_range self tb) None w =
      (Some (settle (_http self (calls w + j)%nat rq)), le, w') /\
    _request self tb rq w = (settle (_http self (calls w + j)%nat rq), w') /\
    calls w' = (calls w + j + 1)%nat /\
    map shape_of (trace w') = (map shape_of (trace w) ++ retried (firstn j tb))%list.
Proof.
  destruct (loop_runs self tb rq (1 + List.length (backoffs self tb)) 0 None w)
    as (j & le & w' & Hj & Hall & Hstop & Hrun & Hcalls & Htrace); [lia | lia |].
  exists j, le, w'. simpl in Hj, Hstop.
  repeat split; try assumption.
  - unfold _request. fold (attempts_range self tb) in Hrun. now rewrite Hrun.
  - rewrite Htrace. rewrite skipn_O. now rewrite firstn_backoffs.
Qed.

(** The same for a call made in a fresh world, read off its result. *)
Corollary request_from_fresh (self : FormBridgeClient.t) (tb : list float)
    (rq : Request.t) (result : res pyval) (w' : world) :
  _request self tb rq fresh = (result, w') ->
  exists j : nat,
    (j <= List.length (backoffs self tb))%nat /\
    (forall i, (i < j)%nat -> will_retry (_http self i rq) = true) /\
    (j = List.length (backoffs self tb) \/ will_retry (_http self j rq) = false) /\
    result = settle (_http self j rq) /\
    (exists le, for_attempts self tb rq (attempts_range self tb) None fresh
                = (Some result, le, w')) /\
    calls w' = S j /\
    attempts_made (trace w') = S j /\
    sleeps (trace w') = firstn j tb /\
    map shape_of (trace w') = retried (firstn j tb).
Proof.
  intros Hreq.
  destruct (request_runs self tb rq fresh)
    as (j & le & w1 & Hj & Hall & Hstop & Hrun & Hreq' & Hcalls & Htrace).
  simpl in *. rewrite Hreq in Hreq'. inversion Hreq'; subst result w1.
  exists j. repeat split; try assumption.
  - exists le. exact Hrun.
  - lia.
  - rewrite attempts_made_shapes, Htrace, shape_requests_retried.
    f_equal. rewrite length_firstn.
    destruct (backoffs_prefix self tb) as (N & HN). rewrite HN in Hj.
    rewrite length_firstn in Hj. lia.
  - rewrite sleeps_shapes, Htrace. apply shape_sleeps_retried.
Qed.

Lemma wrapped_is_FormBridgeError (exc : exn) :
  exists e, wrapped exc = FormBridgeErr e.
Proof. destruct exc; simpl; eauto. Qed.

(** Whatever a call raises from inside the loop is a [FormBridgeError]. *)
Lemma settle_raises_FormBridgeError (out : http_outcome) (exc : exn) :
  settle out = Err exc -> exists e, exc = FormBridgeErr e.
Proof.
  destruct out as [r|te]; unfold settle.
  - destruct (decode r) as [d|x]; [discriminate|].
    intros H. injection H as <-. apply wrapped_is_FormBridgeError.
  - intros H. injection H as <-. eexists. reflexivity.
Qed.

Lemma settle_success (r : Response.t) (data : pyval) :
  Response.status_code r < 400 -> Response.body r = Decoded data ->
  settle (Responded r) = Ok data.
Proof.
  intros Hs Hb. simpl. unfold decode, Response.json. rewrite Hb. simpl.
  destruct (Response.status_code r >=? 400) eqn:E; [|reflexivity].
  apply Z.geb_le in E. lia.
Qed.

Lemma settle_api_error (r : Response.t) (data : pyval) :
  400 <= Response.status_code r -> Response.body r = Decoded data ->
  envelope_ok r = true ->
  settle (Responded r) =
  Err (FormBridgeErr (FormBridgeError.api
         (dict_get (error_info data) "message"
            (PStr ("HTTP " ++ str_of_int (Response.status_code r))))
         (Response.status_code r)
         (dict_get (error_info data) "type" PNone)
         data)).
Proof.
  intros Hs Hb Hok. simpl. unfold decode, Response.json.
  unfold envelope_ok in Hok. rewrite Hb in Hok |- *. simpl.
  destruct (Response.status_code r >=? 400) eqn:E.
  2:{ rewrite Z.geb_leb in E. apply Z.leb_gt in E. lia. }
  destruct data as [| | | | | |d]; try reflexivity.
  simpl. destruct (dict_get d "error" (PDict [])) as [| | | | | |i];
    try discriminate. reflexivity.
Qed.

Lemma settle_undecodable (r : Response.t) (m : string) :
  Response.body r = Undecodable m ->
  settle (Responded r) =
  Err (FormBridgeErr (FormBridgeError.connectivity ("Unexpected error: " ++ m))).
Proof.
  intros Hb. simpl. unfold decode, Response.json. rewrite Hb. reflexivity.
Qed.

Lemma settle_connection (te : transport_error) :
  is_connection_exn (Transport te) = true ->
  settle (Failed te) =
  Err (FormBridgeErr (FormBridgeError.connectivity
         ("Connection failed: " ++ exn_str (Transport te)))).
Proof. intros H. simpl. destruct te; simpl in *; try discriminate; reflexivity. Qed.

Lemma decode_returns (r : Response.t) (data : pyval) :
  decode r = Ok data -> Response.status_code r < 400 /\ Response.body r = Decoded data.
Proof.
  unfold decode, Response.json.
  destruct (Response.body r) as [d|m]; simpl; [|discriminate].
  destruct (Response.status_code r >=? 400) eqn:E.
  - destruct (if is_dict d then py_get d "error" (PDict []) else Ok (PDict []))
      as [i|]; simpl; [|discriminate].
    destruct (py_get i "message" _); simpl; [|discriminate].
    destruct (py_get i "type" PNone); simpl; discriminate.
  - intros H. inversion H. subst. split; [|reflexivity].
    rewrite Z.geb_leb in E. apply Z.leb_gt in E. lia.
Qed.

(** A response with an error status never ends the call with a return. *)
Lemma settle_error_status (r : Response.t) :
  400 <= Response.status_code r ->
  exists e, settle (Responded r) = Err (FormBridgeErr e).
Proof.
  intros Hs. unfold settle. destruct (decode r) as [data|exc] eqn:Hd.
  - apply decode_returns in Hd. lia.
  - destruct (wrapped_is_FormBridgeError exc) as (e & ->). eauto.
Qed.

(** A first outcome that is not retried ends the call after one request:
    no warning and no sleep follow it. *)
Lemma request_no_retry (self : FormBridgeClient.t) (tb : list float)
    (rq : Request.t) (w : world) :
  will_retry (_http self (calls w) rq) = false ->
  _request self tb rq w = (settle (_http self (calls w) rq), after_request rq w).
Proof.
  intros H. unfold _request, attempts_range. simpl seq. simpl for_attempts.
  destruct (loop_body_final self tb rq 0 None w (or_intror H)) as (le & ->).
  destruct (settle (_http self (calls w) rq)); reflexivity.
Qed.

Lemma dict_get_found (d : dict) (k : string) (x y v : pyval) :
  dict_get d k x = v -> v <> x -> dict_get d k y = v.
Proof.
  unfold dict_get. destruct (lookup k d); [auto | congruence].
Qed.

(** Parsing a JSON object never fails. *)
Lemma from_response_dict (d : dict) :
  Submission.from_response (PDict d) =
  Ok (Submission.mk
        (dict_get d "submissionId" (PStr ""))
        (dict_get d "intakeId" (PStr ""))
        (dict_get d "state" (PStr ""))
        (dict_get d "resumeToken" PNone)
        (dict_get d "fields" (PDict []))
        (dict_get d "missingFields" PNone)
        (dict_get d "schema" PNone)
        (timestamp d "createdAt")
        (timestamp d "updatedAt")
        (PDict d)).
Proof.
  unfold Submission.from_response, timestamp. cbn [py_get bind].
  destruct (dict_get d "metadata" PNone) as [| | | | | |m] eqn:Hm;
    cbn [is_dict py_get bind]; try reflexivity.
  rewrite (dict_get_found d "metadata" PNone (PDict []) (PDict m) Hm)
    by discriminate.
  reflexivity.
Qed.

(** When the final response has status >= 400 and its body follows the error
    envelope, the API error carries the status code, the envelope's message
    (or "HTTP <status>") and type, and the whole decoded body. *)
Lemma api_error_fields (self : FormBridgeClient.t) (tb : list float)
    (rq : Request.t) (r : Response.t) (data : pyval) (w : world) :
  _http self (calls w) rq = Responded r ->
  retryable (Response.status_code r) = false ->
  400 <= Response.status_code r ->
  Response.body r = Decoded data ->
  envelope_ok r = true ->
  exists e w',
    _request self tb rq w = (Err (FormBridgeErr e), w') /\
    FormBridgeError.status_code e = Some (Response.status_code r) /\
    FormBridgeError.message e =
      dict_get (error_info data) "message"
        (PStr ("HTTP " ++ str_of_int (Response.status_code r))) /\
    FormBridgeError.error_type e = dict_get (error_info data) "type" PNone /\
    FormBridgeError.is_connectivity_error e = false /\
    FormBridgeError.response_data e = data.
Proof.
  intros Hr Hnr Hs Hb Hok.
  rewrite (request_no_retry self tb rq w) by (rewrite Hr; exact Hnr).
  rewrite Hr, (settle_api_error r data Hs Hb Hok).
  eexists. eexists. split; [reflexivity|]. repeat split.
Qed.

(** ** The test suite, replayed on the model *)

(** [test_retry_on_429]: one 429, then 200; two calls, submission "s1". *)
Example test_retry_on_429 :
  let self := FormBridgeClient.mk 3 (scripted [rate_limited] ok_s1) in
  let run := get_submission self _RETRY_BACKOFFS "v" "s1" fresh in
  calls (snd run) = 2%nat /\
  sleeps (trace (snd run)) = [0.5%float] /\
  exists sub, fst run = Ok sub /\ Submission.submission_id sub = PStr "s1".
Proof. repeat split. eexists. split; reflexivity. Qed.

(** [test_retry_5xx_then_fail]: four 502 responses; status 502, four calls. *)
Example test_retry_5xx_then_fail :
  let self := FormBridgeClient.mk 3 (scripted [] bad_gateway) in
  let run := get_submission self _RETRY_BACKOFFS "v" "s1" fresh in
  calls (snd run) = 4%nat /\
  exists e, fst run = Err (FormBridgeErr e) /\
            FormBridgeError.status_code e = Some 502 /\
            FormBridgeError.message e = PStr "down" /\
            FormBridgeError.error_type e = PStr "bad_gateway".
Proof. split; [reflexivity|]. eexists. repeat split. Qed.

(** [test_connection_refused]: the error is flagged and says "Connection". *)
Example test_connection_refused :
  let self := FormBridgeClient.mk 3 (scripted [] refused) in
  let run := get_submission self _RETRY_BACKOFFS "v" "s1" fresh in
  exists e, fst run = Err (FormBridgeErr e) /\
            FormBridgeError.is_connectivity_error e = true /\
            FormBridgeError.message e = PStr "Connection failed: Connection refused".
Proof. eexists. repeat split. Qed.

(** A negative [max_retries] slices from the end: [-1] keeps two backoffs. *)
Example backoffs_negative_max_retries :
  backoffs (FormBridgeClient.mk (-1) (scripted [] refused)) _RETRY_BACKOFFS
  = [0.5; 1.0]%float.
Proof. reflexivity. Qed.

(** ** The claims *)

(** C1 (amended). For R >= 0 a call makes at most R + 1 attempts whatever the
    transport answers; its trace is a run of retry rounds (request, warning,
    sleep of the table's backoff for that attempt index) closed by one last
    request, and the loop produces exactly one terminal outcome. When every
    response has a retryable status all min(R, len table) retries are used.
    With max_retries = 3 and four 502 responses the call makes exactly 4
    attempts and raises a [FormBridgeError]; it is the API error with
    status_code 502 when the last body follows the error envelope. *)
Theorem C1_retry_bound (self : FormBridgeClient.t) (tb : list float)
    (rq : Request.t) (R : Z) (result : res pyval) (w' : world) :
  _max_retries self = R -> 0 <= R ->
  _request self tb rq fresh = (result, w') ->
  Z.of_nat (attempts_made (trace w')) <= R + 1 /\
  (exists j : nat,
      attempts_made (trace w') = S j /\
      map shape_of (trace w') = retried (firstn j tb) /\
      sleeps (trace w') = firstn j tb /\
      (forall i, (i < j)%nat -> nth_error (sleeps (trace w')) i = nth_error tb i)) /\
  (exists le, for_attempts self tb rq (attempts_range self tb) None fresh
              = (Some result, le, w')) /\
  ((forall k, exists r, _http self k rq = Responded r /\
                        retryable (Response.status_code r) = true) ->
   attempts_made (trace w') = S (Nat.min (Z.to_nat R) (List.length tb))) /\
  (R = 3 -> (3 <= List.length tb)%nat ->
   (forall k, (k < 4)%nat -> exists r, _http self k rq = Responded r /\
                                       Response.status_code r = 502) ->
   attempts_made (trace w') = 4%nat /\
   (exists e, result = Err (FormBridgeErr e)) /\
   (forall r, _http self 3%nat rq = Responded r -> envelope_ok r = true ->
      exists e, result = Err (FormBridgeErr e) /\
                FormBridgeError.status_code e = Some 502 /\
                FormBridgeError.is_connectivity_error e = false)).
Proof.
  intros HR Hnn Hreq.
  destruct (request_from_fresh _ _ _ _ _ Hreq)
    as (j & Hj & Hall & Hstop & Hres & Hloop & _ & Hatt & Hsl & Hshape).
  pose proof (backoffs_nonneg self tb) as Hlen. rewrite HR in Hlen.
  specialize (Hlen Hnn).
  split; [rewrite Hatt; lia|].
  split.
  { exists j. repeat split; try assumption.
    intros i Hi. rewrite Hsl, nth_error_firstn.
    apply Nat.ltb_lt in Hi. now rewrite Hi. }
  split; [exact Hloop|].
  split.
  { intros Hretry. rewrite Hatt. f_equal. rewrite <- Hlen.
    destruct Hstop as [H|H]; [exact H|].
    destruct (Hretry j) as (r & Hr & Hs). rewrite Hr in H. simpl in H. congruence. }
  intros -> Htb H502.
  assert (Hn : List.length (backoffs self tb) = 3%nat) by (rewrite Hlen; lia).
  assert (Hj3 : j = 3%nat).
  { destruct Hstop as [H|H]; [congruence|].
    destruct (H502 j) as (r & Hr & Hs); [lia|].
    rewrite Hr in H. simpl in H. rewrite Hs in H. discriminate. }
  subst j. split; [exact Hatt|].
  destruct (H502 3%nat) as (r3 & Hr3 & Hs3); [lia|].
  rewrite Hr3 in Hres. split.
  - rewrite Hres. apply settle_error_status. lia.
  - intros r Hr Hok. rewrite Hr3 in Hr. inversion Hr; subst r.
    destruct (Response.body r3) as [data|m] eqn:Hb.
    + rewrite (settle_api_error r3 data) in Hres by (assumption || lia).
      eexists. split; [exact Hres|]. simpl. rewrite Hs3. split; reflexivity.
    + unfold envelope_ok in Hok. rewrite Hb in Hok. discriminate.
Qed.

Lemma C1_retry_bound_witness :
  let self := FormBridgeClient.mk 3 (scripted [] bad_gateway) in
  let run := _request self _RETRY_BACKOFFS rq0 fresh in
  0 <= _max_retries self /\
  attempts_made (trace (snd run)) = 4%nat /\
  sleeps (trace (snd run)) = _RETRY_BACKOFFS /\
  exists e, fst run = Err (FormBridgeErr e) /\
            FormBridgeError.status_code e = Some 502.
Proof.
  intros self run.
  destruct (C1_retry_bound self _RETRY_BACKOFFS rq0 3 (fst run) (snd run)
              eq_refl ltac:(discriminate) eq_refl)
    as (_ & _ & _ & _ & Hscenario).
  destruct Hscenario as (Hatt & _ & Hapi).
  - reflexivity.
  - simpl. auto.
  - intros k _. unfold self, scripted. simpl.
    destruct k; (eexists; split; reflexivity).
  - destruct (Hapi _ eq_refl eq_refl) as (e & He & Hs & _).
    split; [discriminate|]. split; [exact Hatt|]. split; [reflexivity|].
    exists e. split; assumption.
Defined.

(** The claim as stated fails for four 502 responses whose bodies are not
    JSON: the call makes 4 attempts, but the error raised is the wrapped
    unexpected error, with no status code and flagged as a connectivity
    error, not an API error with status_code 502. *)
Lemma C1_counterexample :
  let self := FormBridgeClient.mk 3 (scripted [] bad_gateway_html) in
  let run := _request self _RETRY_BACKOFFS rq0 fresh in
  (forall k, exists r, _http self k rq0 = Responded r /\
                       Response.status_code r = 502) /\
  attempts_made (trace (snd run)) = 4%nat /\
  exists e, fst run = Err (FormBridgeErr e) /\
            FormBridgeError.status_code e <> Some 502 /\
            FormBridgeError.status_code e = None /\
            FormBridgeError.is_connectivity_error e = true.
Proof.
  intros self run. split.
  - intros k. unfold self, scripted. simpl.
    destruct k; (eexists; split; reflexivity).
  - split; [reflexivity|]. eexists. split; [reflexivity|].
    split; [discriminate|]. split; reflexivity.
Qed.

(** C2 (amended). For R >= 0, when the transport raises a connection error or
    timeout on every attempt, a call makes exactly min(R, len table) + 1
    attempts (min(R, 3) + 1 with the default table), sleeping the table's
    backoffs in between, and then raises a [FormBridgeError] with
    is_connectivity_error True and no status code. *)
Theorem C2_connection_failure (self : FormBridgeClient.t) (tb : list float)
    (rq : Request.t) (R : Z) (result : res pyval) (w' : world) :
  _max_retries self = R -> 0 <= R ->
  (forall k, exists te, _http self k rq = Failed te /\
                        is_connection_exn (Transport te) = true) ->
  _request self tb rq fresh = (result, w') ->
  attempts_made (trace w') = S (Nat.min (Z.to_nat R) (List.length tb)) /\
  (tb = _RETRY_BACKOFFS -> Z.of_nat (attempts_made (trace w')) = Z.min R 3 + 1) /\
  sleeps (trace w') = firstn (Z.to_nat R) tb /\
  exists e, result = Err (FormBridgeErr e) /\
            FormBridgeError.is_connectivity_error e = true /\
            FormBridgeError.status_code e = None.
Proof.
  intros HR Hnn Hfail Hreq.
  destruct (request_from_fresh _ _ _ _ _ Hreq)
    as (j & Hj & _ & Hstop & Hres & _ & _ & Hatt & Hsl & _).
  pose proof (backoffs_nonneg self tb) as Hlen. rewrite HR in Hlen.
  specialize (Hlen Hnn).
  assert (Hjn : j = Nat.min (Z.to_nat R) (List.length tb)).
  { rewrite <- Hlen. destruct Hstop as [H|H]; [exact H|].
    destruct (Hfail j) as (te & Hte & Hc). rewrite Hte in H. simpl in H.
    simpl in Hc. congruence. }
  split; [rewrite Hatt; congruence|].
  split; [intros ->; rewrite Hatt, Hjn; simpl List.length; lia|].
  split.
  { rewrite Hsl, Hjn. rewrite <- firstn_firstn.
    now rewrite firstn_all. }
  destruct (Hfail j) as (te & Hte & Hc).
  rewrite Hte, (settle_connection te Hc) in Hres.
  eexists. split; [exact Hres|]. split; reflexivity.
Qed.

Lemma C2_connection_failure_witness :
  let self := FormBridgeClient.mk 3 (scripted [] refused) in
  let run := _request self _RETRY_BACKOFFS rq0 fresh in
  0 <= _max_retries self /\
  attempts_made (trace (snd run)) = 4%nat /\
  exists e, fst run = Err (FormBridgeErr e) /\
            FormBridgeError.is_connectivity_error e = true.
Proof.
  intros self run.
  destruct (C2_connection_failure self _RETRY_BACKOFFS rq0 3 (fst run) (snd run)
              eq_refl ltac:(discriminate)
              (fun k => ex_intro _ (ConnectError "Connection refused")
                          (conj (nth_overflow [] refused (Nat.le_0_l k)) eq_refl))
              eq_refl)
    as (Hatt & _ & _ & e & He & Hc & _).
  split; [discriminate|]. split; [exact Hatt|]. exists e. split; assumption.
Defined.

(** The claim as stated fails at max_retries = 5: the connection is refused
    on every attempt, and the call gives up after 4 attempts, not 6. *)
Lemma C2_counterexample :
  let self := FormBridgeClient.mk 5 (scripted [] refused) in
  let run := _request self _RETRY_BACKOFFS rq0 fresh in
  0 <= _max_retries self /\
  (forall k, _http self k rq0 = refused) /\
  attempts_made (trace (snd run)) = 4%nat /\
  Z.of_nat (attempts_made (trace (snd run))) <> _max_retries self + 1.
Proof.
  intros self run. split; [discriminate|]. split.
  - intros k. unfold self, scripted. simpl. now destruct k.
  - split; [reflexivity | discriminate].
Qed.

(** C3 (amended). A first response whose status is not retryable and is at
    least 400 ends the call after exactly 1 attempt, with no warning, sleep
    or retry, in a [FormBridgeError]. The error is the API error carrying
    that status code when the body follows the error envelope; when the body
    does not decode as JSON it is the wrapped unexpected error, which has no
    status code. *)
Theorem C3_no_retry_on_client_error (self : FormBridgeClient.t) (tb : list float)
    (rq : Request.t) (r : Response.t) (result : res pyval) (w' : world) :
  _http self 0%nat rq = Responded r ->
  retryable (Response.status_code r) = false ->
  400 <= Response.status_code r ->
  _request self tb rq fresh = (result, w') ->
  trace w' = [EvRequest rq] /\
  attempts_made (trace w') = 1%nat /\
  sleeps (trace w') = [] /\
  (exists e, result = Err (FormBridgeErr e)) /\
  (envelope_ok r = true ->
   exists e, result = Err (FormBridgeErr e) /\
             FormBridgeError.status_code e = Some (Response.status_code r) /\
             FormBridgeError.is_connectivity_error e = false) /\
  (forall m, Response.body r = Undecodable m ->
   result = Err (FormBridgeErr
                   (FormBridgeError.connectivity ("Unexpected error: " ++ m)))).
Proof.
  intros Hr Hnr Hs Hreq.
  rewrite (request_no_retry self tb rq fresh) in Hreq
    by (simpl calls; rewrite Hr; exact Hnr).
  simpl calls in Hreq. rewrite Hr in Hreq.
  pose proof (f_equal fst Hreq) as Hres. pose proof (f_equal snd Hreq) as Hw.
  cbn [fst snd] in Hres, Hw. subst w'. clear Hreq.
  repeat split.
  - rewrite <- Hres. now apply settle_error_status.
  - intros Hok. destruct (Response.body r) as [data|m] eqn:Hb.
    + rewrite (settle_api_error r data Hs Hb Hok) in Hres.
      eexists. split; [symmetry; exact Hres|]. split; reflexivity.
    + unfold envelope_ok in Hok. rewrite Hb in Hok. discriminate.
  - intros m Hb. rewrite <- Hres. now apply settle_undecodable.
Qed.

Lemma C3_no_retry_on_client_error_witness :
  let self := FormBridgeClient.mk 3 (scripted [] unauthorized) in
  let run := _request self _RETRY_BACKOFFS rq0 fresh in
  400 <= 401 /\
  attempts_made (trace (snd run)) = 1%nat /\
  exists e, fst run = Err (FormBridgeErr e) /\
            FormBridgeError.status_code e = Some 401.
Proof.
  intros self run.
  destruct (C3_no_retry_on_client_error self _RETRY_BACKOFFS rq0 _ (fst run) (snd run)
              eq_refl eq_refl ltac:(discriminate) eq_refl)
    as (_ & Hatt & _ & _ & Hapi & _).
  destruct (Hapi eq_refl) as (e & He & Hs & _).
  split; [discriminate|]. split; [exact Hatt|]. exists e. split; assumption.
Defined.

(** The claim as stated fails for a 401 response whose body is not JSON: the
    call makes one attempt, but the error raised carries no status code and
    is flagged as a connectivity error. *)
Lemma C3_counterexample :
  let self := FormBridgeClient.mk 3 (scripted [] unauthorized_html) in
  let run := _request self _RETRY_BACKOFFS rq0 fresh in
  retryable 401 = false /\ 400 <= 401 /\
  attempts_made (trace (snd run)) = 1%nat /\
  exists e, fst run = Err (FormBridgeErr e) /\
            FormBridgeError.status_code e <> Some 401 /\
            FormBridgeError.status_code e = None /\
            FormBridgeError.is_connectivity_error e = true.
Proof.
  intros self run. split; [reflexivity|]. split; [discriminate|].
  split; [reflexivity|]. eexists. split; [reflexivity|].
  split; [discriminate|]. split; reflexivity.
Qed.

(** C4 (amended). For R >= 0 and an attempt index a <= min(R, len table),
    when the attempts before a were all retried and attempt a is answered
    with a status below 400 whose body decodes, the call stops there: it
    returns the decoded body after exactly a + 1 attempts, having slept the
    first a backoffs; an object body parses into a Submission whose
    submission_id is the body's [submissionId]. *)
Theorem C4_success_stops (self : FormBridgeClient.t) (tb : list float)
    (rq : Request.t) (R : Z) (a : nat) (r : Response.t) (data : pyval)
    (result : res pyval) (w' : world) :
  _max_retries self = R -> 0 <= R ->
  (a <= Nat.min (Z.to_nat R) (List.length tb))%nat ->
  (forall i, (i < a)%nat -> will_retry (_http self i rq) = true) ->
  _http self a rq = Responded r ->
  Response.status_code r < 400 ->
  Response.body r = Decoded data ->
  _request self tb rq fresh = (result, w') ->
  result = Ok data /\
  attempts_made (trace w') = S a /\
  sleeps (trace w') = firstn a tb /\
  (forall d, data = PDict d ->
     exists sub, Submission.from_response data = Ok sub /\
                 Submission.submission_id sub = dict_get d "submissionId" (PStr "") /\
                 Submission.raw sub = data).
Proof.
  intros HR Hnn Ha Hbefore Hr Hs Hb Hreq.
  destruct (request_from_fresh _ _ _ _ _ Hreq)
    as (j & Hj & Hall & Hstop & Hres & _ & _ & Hatt & Hsl & _).
  pose proof (backoffs_nonneg self tb) as Hlen. rewrite HR in Hlen.
  specialize (Hlen Hnn).
  assert (Hnot : will_retry (_http self a rq) = false).
  { rewrite Hr. simpl. destruct (retryable (Response.status_code r)) eqn:E;
      [|reflexivity]. apply retryable_ge_400 in E. lia. }
  assert (Hja : j = a).
  { destruct (Nat.lt_trichotomy j a) as [Hlt | [Heq | Hgt]]; [|exact Heq|].
    - destruct Hstop as [H|H]; [lia|]. rewrite (Hbefore j Hlt) in H. discriminate.
    - rewrite (Hall a Hgt) in Hnot. discriminate. }
  subst j. rewrite Hr in Hres. rewrite (settle_success r data Hs Hb) in Hres.
  repeat split; try assumption.
  intros d ->. rewrite from_response_dict. eexists. repeat split.
Qed.

Lemma C4_success_stops_witness :
  let self := FormBridgeClient.mk 3 (scripted [rate_limited; rate_limited] ok_s1) in
  let run := get_submission self _RETRY_BACKOFFS "v" "s1" fresh in
  0 <= _max_retries self /\
  attempts_made (trace (snd run)) = 3%nat /\
  sleeps (trace (snd run)) = [0.5; 1.0]%float /\
  exists sub, fst run = Ok sub /\ Submission.submission_id sub = PStr "s1".
Proof.
  intros self run.
  pose (raw := _request self _RETRY_BACKOFFS rq0 fresh).
  destruct (C4_success_stops self _RETRY_BACKOFFS rq0 3 2 s1_response s1_body
              (fst raw) (snd raw) eq_refl ltac:(discriminate))
    as (Hres & Hatt & Hsl & Hsub).
  - simpl. auto.
  - intros i Hi. destruct i as [|[|i]]; [reflexivity | reflexivity |].
    exfalso. apply (Nat.lt_irrefl 2). apply Nat.le_trans with (S (S (S i))); auto.
    repeat apply le_n_S. apply Nat.le_0_l.
  - reflexivity.
  - reflexivity.
  - reflexivity.
  - reflexivity.
  - destruct (Hsub _ eq_refl) as (sub & Hparse & Hid & _).
    split; [discriminate|]. split; [exact Hatt|]. split; [exact Hsl|].
    exists sub. split; [|exact Hid].
    rewrite <- Hparse. reflexivity.
Defined.

(** The claim as stated fails at max_retries = 5 for a success at attempt
    index 4 <= 5: after four 429 responses the call raises the API error of
    the fourth one, and the 200 response that would follow is never asked
    for. *)
Lemma C4_counterexample :
  let self := FormBridgeClient.mk 5
    (scripted [rate_limited; rate_limited; rate_limited; rate_limited] ok_s1) in
  let run := _request self _RETRY_BACKOFFS rq0 fresh in
  0 <= _max_retries self /\ 4 <= _max_retries self /\
  (forall i, (i < 4)%nat -> _http self i rq0 = rate_limited) /\
  _http self 4%nat rq0 = ok_s1 /\
  attempts_made (trace (snd run)) = 4%nat /\
  (forall data, fst run <> Ok data) /\
  exists e, fst run = Err (FormBridgeErr e) /\
            FormBridgeError.status_code e = Some 429.
Proof.
  intros self run. split; [discriminate|]. split; [discriminate|]. split.
  - intros i Hi. destruct i as [|[|[|[|i]]]]; try reflexivity. lia.
  - split; [reflexivity|]. split; [reflexivity|]. split.
    + intros data H. discriminate.
    + eexists. split; reflexivity.
Qed.

(** C5 (amended). Every error [_request] raises is a [FormBridgeError]. One
    whose is_connectivity_error is True carries no status code and no
    response data, and is raised only when the last attempt made ended in an
    exception other than an API error: the transport raised a connection
    error or timeout on the last permitted attempt (whatever the earlier
    attempts received), or the transport raised some other exception, or
    the response body did not decode or its error entry could not be read;
    the last three are wrapped as "Unexpected error". *)
Theorem C5_connectivity_flag (self : FormBridgeClient.t) (tb : list float)
    (rq : Request.t) (result : res pyval) (w' : world) :
  _request self tb rq fresh = (result, w') ->
  (forall exc, result = Err exc -> exists e, exc = FormBridgeErr e) /\
  (forall e, result = Err (FormBridgeErr e) ->
     FormBridgeError.is_connectivity_error e = true ->
     FormBridgeError.status_code e = None /\
     FormBridgeError.response_data e = PNone /\
     let last := _http self (attempts_made (trace w') - 1)%nat rq in
     ((exists te, last = Failed te /\
                  is_connection_exn (Transport te) = true /\
                  attempts_made (trace w') = S (List.length (backoffs self tb)) /\
                  FormBridgeError.message e =
                    PStr ("Connection failed: " ++ exn_str (Transport te))) \/
      (exists cls m, last = Failed (OtherError cls m) /\
                     FormBridgeError.message e = PStr ("Unexpected error: " ++ m)) \/
      (exists r m, last = Responded r /\ Response.body r = Undecodable m /\
                   FormBridgeError.message e = PStr ("Unexpected error: " ++ m)) \/
      (exists r data m, last = Responded r /\ Response.body r = Decoded data /\
                        envelope_ok r = false /\
                        FormBridgeError.message e = PStr ("Unexpected error: " ++ m)))).
Proof.
  intros Hreq.
  destruct (request_from_fresh _ _ _ _ _ Hreq)
    as (j & Hj & _ & Hstop & Hres & _ & _ & Hatt & _ & _).
  split.
  { intros exc He. rewrite Hres in He. now apply settle_raises_FormBridgeError in He. }
  intros e He Hflag. rewrite Hatt. replace (S j - 1)%nat with j by lia.
  rewrite Hres in He. unfold settle in He.
  destruct (_http self j rq) as [r|te] eqn:Hout.
  - destruct (decode r) as [data|exc] eqn:Hd; [discriminate|].
    assert (Hw : wrapped exc = FormBridgeErr e) by congruence. clear He.
    destruct (decode_raises r exc Hd)
      as [(m & -> & Hb) | [(m & data & -> & Hb & Hok) | (e0 & data & -> & _ & _ & _ & Hf & _)]];
      cbn in Hw; injection Hw as Hw; subst e.
    + split; [reflexivity|]. split; [reflexivity|].
      right. right. left. exists r, m. repeat split. exact Hb.
    + split; [reflexivity|]. split; [reflexivity|].
      right. right. right. exists r, data, m. repeat split; assumption.
    + congruence.
  - assert (Hw : wrapped (Transport te) = FormBridgeErr e) by congruence. clear He.
    destruct te as [m|m|m|cls m]; cbn in Hw; injection Hw as Hw; subst e;
      (split; [reflexivity|]); (split; [reflexivity|]);
      try (left; eexists; split; [reflexivity|]; split; [reflexivity|];
           split; [|reflexivity];
           destruct Hstop as [H|H]; [congruence | discriminate]).
    right. left. exists cls, m. split; reflexivity.
Qed.

Lemma C5_connectivity_flag_witness :
  let self := FormBridgeClient.mk 3 gateway_then_refused in
  let run := _request self _RETRY_BACKOFFS rq0 fresh in
  exists e, fst run = Err (FormBridgeErr e) /\
            FormBridgeError.is_connectivity_error e = true /\
            FormBridgeError.status_code e = None.
Proof.
  intros self run.
  destruct (C5_connectivity_flag self _RETRY_BACKOFFS rq0 (fst run) (snd run) eq_refl)
    as (_ & Hflag).
  eexists. split; [reflexivity|]. split; [reflexivity|].
  exact (proj1 (Hflag _ eq_refl eq_refl)).
Defined.

(** The claim as stated fails when the server answered before the connection
    went away: attempt 0 receives a 502 response, attempts 1 to 3 are
    refused, and the call raises an error flagged as a connectivity error
    although the transport did produce an HTTP response. *)
Lemma C5_counterexample :
  let self := FormBridgeClient.mk 3 gateway_then_refused in
  let run := _request self _RETRY_BACKOFFS rq0 fresh in
  _http self 0%nat rq0 = bad_gateway /\
  attempts_made (trace (snd run)) = 4%nat /\
  exists e, fst run = Err (FormBridgeErr e) /\
            FormBridgeError.is_connectivity_error e = true /\
            ~ (forall k, (k < attempts_made (trace (snd run)))%nat ->
                         exists te, _http self k rq0 = Failed te).
Proof.
  intros self run. split; [reflexivity|]. split; [reflexivity|].
  eexists. split; [reflexivity|]. split; [reflexivity|].
  intros H. destruct (H 0%nat) as (te & Hte).
  - change (attempts_made (trace (snd run))) with 4%nat. lia.
  - discriminate.
Qed.

(** C6. At a 400 response with the decoded body {"error": "oops"} the call
    does not raise the API error: reading [message] from the string raises
    an AttributeError, which is wrapped as an unexpected error with no status
    code, no response data and is_connectivity_error True. *)
Theorem C6_error_entry_not_object :
  let self := FormBridgeClient.mk 3 (scripted [] error_is_string) in
  _request self _RETRY_BACKOFFS rq0 fresh =
    (Err (FormBridgeErr
            (FormBridgeError.mk
               (PStr "Unexpected error: 'str' object has no attribute 'get'")
               None PNone true PNone)),
     mkWorld 1 [EvRequest rq0]).
Proof. reflexivity. Qed.

(** C7. When the request of [create_submission] succeeds with a body that
    omits the intake identifier, the Submission returned has the caller's
    intake_id, and every other field is the one parsed from the response. *)
Theorem C7_create_backfills_intake_id (self : FormBridgeClient.t) (tb : list float)
    (intake_id : string) (fields : option dict) (actor : option Actor.t)
    (idempotency_key : option string) (w w' : world) (d : dict) :
  _request self tb
    (Request.mk "POST" ("/intake/" ++ intake_id ++ "/submissions")
       (PDict (create_body fields actor idempotency_key))) w = (Ok (PDict d), w') ->
  omits_intake_id d ->
  exists parsed sub,
    Submission.from_response (PDict d) = Ok parsed /\
    create_submission self tb intake_id fields actor idempotency_key w = (Ok sub, w') /\
    Submission.intake_id sub = PStr intake_id /\
    Submission.submission_id sub = Submission.submission_id parsed /\
    Submission.state sub = Submission.state parsed /\
    Submission.resume_token sub = Submission.resume_token parsed /\
    Submission.fields sub = Submission.fields parsed /\
    Submission.missing_fields sub = Submission.missing_fields parsed /\
    Submission.schema sub = Submission.schema parsed /\
    Submission.created_at sub = Submission.created_at parsed /\
    Submission.updated_at sub = Submission.updated_at parsed /\
    Submission.raw sub = Submission.raw parsed.
Proof.
  intros Hreq Homit.
  assert (Hfalsy : truthy (dict_get d "intakeId" (PStr "")) = false).
  { unfold dict_get. destruct Homit as [-> | (v & -> & Hv)]; [reflexivity | exact Hv]. }
  eexists. eexists. split; [apply from_response_dict|].
  split.
  - unfold create_submission. rewrite Hreq. rewrite from_response_dict.
    cbn [bind Submission.intake_id]. rewrite Hfalsy. reflexivity.
  - repeat split.
Qed.

Lemma C7_create_backfills_intake_id_witness :
  let self := FormBridgeClient.mk 3 (scripted [] created) in
  let run := create_submission self _RETRY_BACKOFFS "vendor"
               (Some [("company", PStr "Acme")])
               (Some (Actor.mk "agent" "agent-1" (Some "Bot")))
               (Some "idem-1") fresh in
  omits_intake_id created_body /\
  exists sub, fst run = Ok sub /\
              Submission.intake_id sub = PStr "vendor" /\
              Submission.submission_id sub = PStr "sub_123" /\
              Submission.missing_fields sub = PList [PStr "email"].
Proof.
  intros self run.
  assert (Homit : omits_intake_id created_body) by (left; reflexivity).
  destruct (C7_create_backfills_intake_id self _RETRY_BACKOFFS "vendor"
              (Some [("company", PStr "Acme")])
              (Some (Actor.mk "agent" "agent-1" (Some "Bot")))
              (Some "idem-1") fresh (snd run)
              created_body eq_refl Homit)
    as (parsed & sub & Hparse & Hrun & Hid & Hsid & _ & _ & _ & Hmf & _).
  split; [exact Homit|].
  exists sub. split; [unfold run; rewrite Hrun; reflexivity|].
  split; [exact Hid|].
  injection Hparse as <-. split; [rewrite Hsid | rewrite Hmf]; reflexivity.
Defined.

(** C8. The code after the retry loop is unreachable: for every client,
    backoff table, request and starting world the loop itself ends the call
    with a return or a raise, so [_request] never takes its post-loop
    fallback, and in particular never raises the internal-logic
    [RuntimeError]. *)
Theorem C8_fallback_unreachable (self : FormBridgeClient.t) (tb : list float)
    (rq : Request.t) (w : world) :
  exists (r : res pyval) (le : option exn) (w' : world),
    for_attempts self tb rq (attempts_range self tb) None w = (Some r, le, w') /\
    _request self tb rq w = (r, w') /\
    (forall m, r <> Err (RuntimeError m)) /\
    (forall m, r <> Err (IndexError m)).
Proof.
  destruct (request_runs self tb rq w)
    as (j & le & w' & _ & _ & _ & Hrun & Hreq & _).
  eexists; exists le, w'. repeat split; try eassumption.
  - intros m H. apply settle_raises_FormBridgeError in H.
    destruct H as (e & H). discriminate.
  - intros m H. apply settle_raises_FormBridgeError in H.
    destruct H as (e & H). discriminate.
Qed.

(** C10. With the module's default table [0.5, 1.0, 2.0] and R >= 0 the
    backoffs used are its first min(R, 3) entries, a call makes at most
    min(R, 3) + 1 attempts, hence at most 4 when R > 3, and exactly 1 when
    R = 0. *)
Theorem C10_backoffs_truncated (self : FormBridgeClient.t) (rq : Request.t)
    (R : Z) (result : res pyval) (w' : world) :
  _max_retries self = R -> 0 <= R ->
  _request self _RETRY_BACKOFFS rq fresh = (result, w') ->
  backoffs self _RETRY_BACKOFFS = firstn (Z.to_nat (Z.min R 3)) _RETRY_BACKOFFS /\
  Z.of_nat (List.length (backoffs self _RETRY_BACKOFFS)) = Z.min R 3 /\
  Z.of_nat (attempts_made (trace w')) <= Z.min R 3 + 1 /\
  (3 < R -> (attempts_made (trace w') <= 4)%nat) /\
  (R = 0 -> attempts_made (trace w') = 1%nat /\ sleeps (trace w') = []).
Proof.
  intros HR Hnn Hreq.
  assert (Hlen : Z.of_nat (List.length (backoffs self _RETRY_BACKOFFS)) = Z.min R 3).
  { rewrite backoffs_nonneg by lia. rewrite HR. simpl List.length. lia. }
  destruct (request_from_fresh _ _ _ _ _ Hreq)
    as (j & Hj & _ & _ & _ & _ & _ & Hatt & Hsl & _).
  split; [|split; [exact Hlen|]].
  - unfold backoffs. rewrite slice_to_nonneg by lia. rewrite HR.
    destruct (Z.le_gt_cases R 3) as [H|H].
    + now rewrite Z.min_l by lia.
    + rewrite Z.min_r by lia.
      rewrite !firstn_all2; [reflexivity | simpl; lia | simpl; lia].
  - rewrite Hatt. split; [lia|]. split; [lia|].
    intros H0. assert (j = 0%nat) by lia. subst j.
    split; [reflexivity|]. rewrite Hsl. reflexivity.
Qed.

Lemma C10_backoffs_truncated_witness :
  let self := FormBridgeClient.mk 5 (scripted [] bad_gateway) in
  let run := _request self _RETRY_BACKOFFS rq0 fresh in
  0 <= _max_retries self /\
  backoffs self _RETRY_BACKOFFS = _RETRY_BACKOFFS /\
  (attempts_made (trace (snd run)) <= 4)%nat.
Proof.
  intros self run.
  destruct (C10_backoffs_truncated self rq0 5 (fst run) (snd run)
              eq_refl ltac:(discriminate) eq_refl)
    as (Hb & _ & _ & H4 & _).
  split; [discriminate|]. split; [exact Hb|]. apply H4. reflexivity.
Defined.

(** ** Further properties of the retry loop *)

Lemma backoffs_nth (self : FormBridgeClient.t) (tb : list float) (k : nat) (b : float) :
  nth_error (backoffs self tb) k = Some b -> nth k tb 0%float = b.
Proof.
  destruct (backoffs_prefix self tb) as (N & ->).
  rewrite nth_error_firstn. destruct (k <? N)%nat; [|discriminate].
  intros H. now apply nth_error_nth.
Qed.

Section Trace.
Variable self : FormBridgeClient.t.
Variable tb : list float.
Variable rq : Request.t.

Let bs : list float := backoffs self tb.
Let http : transport := _http self.
Let total : nat := (List.length bs + 1)%nat.

(** The retry step, with the warning it logs. *)
Lemma loop_body_retry_exact (a : nat) (le : option exn) (w : world) (b : float) :
  nth_error bs a = Some b ->
  will_retry (http (calls w) rq) = true ->
  exists le',
    loop_body self tb rq a le w =
    (Continue, le', after_retry rq (warning_of (http (calls w) rq) a total b) b w).
Proof.
  intros Hb Hr.
  assert (Ha : (a <? List.length bs)%nat = true).
  { apply Nat.ltb_lt. apply nth_error_Some. congruence. }
  unfold loop_body, try_block, http_request. fold http. fold bs.
  destruct (http (calls w) rq) as [r|e] eqn:Ho; simpl in Hr.
  - rewrite Hr, Ha. simpl. unfold index. rewrite Hb.
    exists le. unfold after_retry, sleep, log_warning, emit, total. simpl.
    rewrite <- !app_assoc. reflexivity.
  - destruct e; simpl in Hr; try discriminate; simpl;
      rewrite Ha; unfold index; rewrite Hb;
      eexists; unfold after_retry, sleep, log_warning, emit, total; simpl;
      rewrite <- !app_assoc; reflexivity.
Qed.

(** From attempt [k], made as call number [k], the loop appends the events
    of the retried attempts and one last request. *)
Lemma loop_trace (m : nat) :
  forall (k : nat) (le : option exn) (w : world),
    calls w = k ->
    (k + m = S (List.length bs))%nat -> (1 <= m)%nat ->
    exists (j : nat) (r : res pyval) (le' : option exn) (w' : world),
      (k + j <= List.length bs)%nat /\
      for_attempts self tb rq (seq k m) le w = (Some r, le', w') /\
      calls w' = S (k + j) /\
      trace w' =
        (trace w ++ List.concat (map (retry_events http rq total tb) (seq k j))
                 ++ [EvRequest rq])%list.
Proof.
  induction m as [|m IH]; intros k le w Hc Hk Hm; [lia|].
  destruct (will_retry (http (calls w) rq) && (k <? List.length bs)%nat) eqn:Hgo.
  - apply andb_true_iff in Hgo. destruct Hgo as [Hr Hlt].
    apply Nat.ltb_lt in Hlt.
    destruct (index_in_range bs k Hlt) as (b & Hb & _).
    destruct (loop_body_retry_exact k le w b Hb Hr) as (le1 & Hbody).
    destruct (IH (S k) le1
                (after_retry rq (warning_of (http (calls w) rq) k total b) b w))
      as (j & r & le' & w' & Hj & Hrun & Hcalls & Htrace);
      [simpl; lia | lia | lia |].
    exists (S j), r, le', w'. repeat split.
    + lia.
    + simpl seq. simpl for_attempts. fold bs. rewrite Hbody. exact Hrun.
    + lia.
    + rewrite Htrace. simpl trace. simpl seq. simpl map. simpl List.concat.
      unfold retry_events at 2. rewrite (backoffs_nth self tb k b Hb).
      rewrite Hc. rewrite <- !app_assoc. reflexivity.
  - assert (Hfin : (List.length bs <= k)%nat \/ will_retry (http (calls w) rq) = false).
    { apply andb_false_iff in Hgo. destruct Hgo as [H|H]; [now right|].
      left. now apply Nat.ltb_ge in H. }
    destruct (loop_body_final self tb rq k le w Hfin) as (le' & Hbody).
    exists 0%nat, (settle (http (calls w) rq)), le', (after_request rq w).
    repeat split.
    + lia.
    + simpl seq. simpl for_attempts. fold bs. rewrite Hbody. unfold http.
      destruct (settle (_http self (calls w) rq)); reflexivity.
    + simpl. lia.
Qed.
End Trace.

(** The whole trace of a call made in a fresh world. *)
Lemma request_trace_fresh (self : FormBridgeClient.t) (tb : list float)
    (rq : Request.t) (result : res pyval) (w' : world) :
  _request self tb rq fresh = (result, w') ->
  exists j : nat,
    (j <= List.length (backoffs self tb))%nat /\
    attempts_made (trace w') = S j /\
    trace w' = call_trace (_http self) rq (List.length (backoffs self tb) + 1) tb j.
Proof.
  intros Hreq.
  destruct (loop_trace self tb rq (1 + List.length (backoffs self tb)) 0 None fresh)
    as (j & r & le & w1 & Hj & Hrun & Hcalls & Htrace); [reflexivity | lia | lia |].
  assert (Hw : w1 = w').
  { unfold _request in Hreq. fold (attempts_range self tb) in Hrun.
    rewrite Hrun in Hreq. now inversion Hreq. }
  subst w1.
  destruct (request_from_fresh _ _ _ _ _ Hreq)
    as (j' & _ & _ & _ & _ & _ & Hcalls' & Hatt & _).
  exists j. split; [lia|]. split; [rewrite Hatt; lia|].
  exact Htrace.
Qed.

Lemma requests_app (tr1 tr2 : list event) :
  requests (tr1 ++ tr2) = (requests tr1 ++ requests tr2)%list.
Proof.
  induction tr1 as [|e tr1 IH]; [reflexivity|].
  destruct e; simpl; now rewrite IH.
Qed.

Lemma warnings_app (tr1 tr2 : list event) :
  warnings (tr1 ++ tr2) = (warnings tr1 ++ warnings tr2)%list.
Proof.
  induction tr1 as [|e tr1 IH]; [reflexivity|].
  destruct e; simpl; now rewrite IH.
Qed.

Lemma requests_rounds (http : transport) (rq : Request.t) (total : nat)
    (tb : list float) (l : list nat) :
  requests (List.concat (map (retry_events http rq total tb) l))
  = repeat rq (List.length l).
Proof.
  induction l as [|i l IH]; [reflexivity|]. simpl. now rewrite IH.
Qed.

Lemma warnings_rounds (http : transport) (rq : Request.t) (total : nat)
    (tb : list float) (l : list nat) :
  warnings (List.concat (map (retry_events http rq total tb) l))
  = map (fun i => warning_of (http i rq) i total (nth i tb 0%float)) l.
Proof.
  induction l as [|i l IH]; [reflexivity|]. simpl. now rewrite IH.
Qed.

Lemma requests_fresh (self : FormBridgeClient.t) (tb : list float)
    (rq : Request.t) (result : res pyval) (w' : world) :
  _request self tb rq fresh = (result, w') ->
  exists k : nat,
    (1 <= k <= List.length (backoffs self tb) + 1)%nat /\
    attempts_made (trace w') = k /\
    requests (trace w') = repeat rq k.
Proof.
  intros Hreq.
  destruct (request_trace_fresh _ _ _ _ _ Hreq) as (j & Hj & Hatt & Htr).
  exists (S j). split; [lia|]. split; [exact Hatt|].
  rewrite Htr. unfold call_trace.
  rewrite requests_app, requests_rounds, length_seq. simpl.
  change (rq :: repeat rq j) with (repeat rq (S j)).
  now rewrite <- repeat_cons.
Qed.

(** A call ends at the first attempt whose outcome is not retried. *)
Lemma request_stops_at (self : FormBridgeClient.t) (tb : list float)
    (rq : Request.t) (a : nat) (result : res pyval) (w' : world) :
  (a <= List.length (backoffs self tb))%nat ->
  (forall i, (i < a)%nat -> will_retry (_http self i rq) = true) ->
  will_retry (_http self a rq) = false ->
  _request self tb rq fresh = (result, w') ->
  result = settle (_http self a rq) /\
  attempts_made (trace w') = S a /\
  sleeps (trace w') = firstn a tb.
Proof.
  intros Ha Hbefore Hnot Hreq.
  destruct (request_from_fresh _ _ _ _ _ Hreq)
    as (j & Hj & Hall & Hstop & Hres & _ & _ & Hatt & Hsl & _).
  assert (Hja : j = a).
  { destruct (Nat.lt_trichotomy j a) as [Hlt | [Heq | Hgt]]; [|exact Heq|].
    - destruct Hstop as [H|H]; [lia|]. rewrite (Hbefore j Hlt) in H. discriminate.
    - rewrite (Hall a Hgt) in Hnot. discriminate. }
  subst j. repeat split; assumption.
Qed.

(** What [decode] raises as an API error is read from the body. *)
Lemma decode_api_error (r : Response.t) (e : FormBridgeError.t) :
  decode r = Err (FormBridgeErr e) ->
  exists data,
    Response.body r = Decoded data /\
    400 <= Response.status_code r /\
    e = FormBridgeError.api
          (dict_get (error_info data) "message"
             (PStr ("HTTP " ++ str_of_int (Response.status_code r))))
          (Response.status_code r)
          (dict_get (error_info data) "type" PNone)
          data.
Proof.
  unfold decode, Response.json.
  destruct (Response.body r) as [data|m] eqn:Hb; simpl; [|discriminate].
  destruct (Response.status_code r >=? 400) eqn:Hs; [|discriminate].
  assert (400 <= Response.status_code r) by (apply Z.geb_le in Hs; lia).
  intros H'. exists data. split; [reflexivity|]. split; [assumption|].
  destruct data as [| | | | | |d]; simpl in H' |- *;
    try (injection H' as <-; reflexivity).
  destruct (dict_get d "error" (PDict [])) as [| | | | | |i]; simpl in H';
    try discriminate.
  injection H' as <-. reflexivity.
Qed.

(** X1. The whole trace of a call: each retried attempt i leaves its request,
    one warning that reports attempt i + 1 of len(backoffs) + 1 with the
    status or the exception text of that attempt and the backoff, and a sleep
    of that backoff table[i]; the last attempt leaves its request only. So
    there is one warning per sleep and nothing after the last request. *)
Theorem call_trace_exact (self : FormBridgeClient.t) (tb : list float)
    (rq : Request.t) (result : res pyval) (w' : world) :
  _request self tb rq fresh = (result, w') ->
  let j := (attempts_made (trace w') - 1)%nat in
  let total := (List.length (backoffs self tb) + 1)%nat in
  trace w' = call_trace (_http self) rq total tb j /\
  warnings (trace w') =
    map (fun i => warning_of (_http self i rq) i total (nth i tb 0%float)) (seq 0 j) /\
  sleeps (trace w') = map (fun i => nth i tb 0%float) (seq 0 j) /\
  last (trace w') (EvSleep 0%float) = EvRequest rq.
Proof.
  intros Hreq j total.
  destruct (request_trace_fresh _ _ _ _ _ Hreq) as (j' & Hj & Hatt & Htr).
  assert (Hjj : j = j') by (unfold j; rewrite Hatt; lia).
  rewrite Hjj. fold total in Htr.
  split; [exact Htr|]. split; [|split].
  - rewrite Htr. unfold call_trace.
    rewrite warnings_app, warnings_rounds. simpl. now rewrite app_nil_r.
  - rewrite Htr. unfold call_trace. generalize (seq 0 j') as l.
    induction l as [|i l IH]; [reflexivity|]. simpl. now rewrite IH.
  - rewrite Htr. unfold call_trace. apply last_last.
Qed.

Lemma call_trace_exact_witness :
  let self := FormBridgeClient.mk 3 (scripted [rate_limited; refused] ok_s1) in
  let run := _request self _RETRY_BACKOFFS rq0 fresh in
  warnings (trace (snd run)) =
    [WarnStatus 429 1 4 0.5%float;
     WarnConnection 2 4 "Connection refused" 1.0%float] /\
  sleeps (trace (snd run)) = [0.5; 1.0]%float.
Proof.
  intros self run.
  destruct (call_trace_exact self _RETRY_BACKOFFS rq0 (fst run) (snd run) eq_refl)
    as (_ & Hw & Hs & _).
  split; [exact Hw | exact Hs].
Defined.

(** X2. Every HTTP request an operation issues is the operation's own
    request (same method, path and body on every retry), and each of
    create_submission, get_submission, set_fields and submit issues between
    1 and len(backoffs) + 1 of them. *)
Theorem operations_resend_the_same_request (self : FormBridgeClient.t)
    (tb : list float) (intake_id submission_id resume_token : string)
    (fields : option dict) (new_fields : dict) (actor : option Actor.t)
    (idempotency_key : option string) :
  let n := List.length (backoffs self tb) in
  let sent (w' : world) (rq : Request.t) :=
    exists k : nat, (1 <= k <= n + 1)%nat /\ requests (trace w') = repeat rq k in
  sent (snd (create_submission self tb intake_id fields actor idempotency_key fresh))
       (create_request intake_id fields actor idempotency_key) /\
  sent (snd (get_submission self tb intake_id submission_id fresh))
       (get_request intake_id submission_id) /\
  sent (snd (set_fields self tb intake_id submission_id resume_token new_fields
               actor fresh))
       (set_fields_request intake_id submission_id resume_token new_fields actor) /\
  sent (snd (submit self tb intake_id submission_id resume_token actor fresh))
       (submit_request intake_id submission_id resume_token actor).
Proof.
  intros n sent.
  assert (H : forall rq, sent (snd (_request self tb rq fresh)) rq).
  { intros rq. destruct (_request self tb rq fresh) as [r w1] eqn:Hreq.
    destruct (requests_fresh _ _ _ _ _ Hreq) as (k & Hk & _ & Hrq).
    exists k. split; assumption. }
  repeat split.
  - unfold create_submission. fold (create_request intake_id fields actor idempotency_key).
    specialize (H (create_request intake_id fields actor idempotency_key)).
    destruct (_request self tb _ fresh) as [[d|e] w1]; exact H.
  - unfold get_submission. fold (get_request intake_id submission_id).
    specialize (H (get_request intake_id submission_id)).
    destruct (_request self tb _ fresh) as [[d|e] w1]; exact H.
  - unfold set_fields.
    fold (set_fields_request intake_id submission_id resume_token new_fields actor).
    specialize (H (set_fields_request intake_id submission_id resume_token
                     new_fields actor)).
    destruct (_request self tb _ fresh) as [[d|e] w1]; exact H.
  - unfold submit. fold (submit_request intake_id submission_id resume_token actor).
    specialize (H (submit_request intake_id submission_id resume_token actor)).
    destruct (_request self tb _ fresh) as [[d|e] w1]; exact H.
Qed.

(** X3. A negative max_retries does not switch retries off: the slice
    [_RETRY_BACKOFFS[:R]] then drops the last |R| backoffs, so a call still
    makes up to max(0, len table + R) + 1 attempts, and exactly that many
    when every outcome is retryable (3 attempts for R = -1 and the default
    table); only R <= -len table gives a single attempt. *)
Theorem slicing_by_negative_max_retries (self : FormBridgeClient.t) (tb : list float)
    (rq : Request.t) (R : Z) (result : res pyval) (w' : world) :
  _max_retries self = R -> R < 0 ->
  _request self tb rq fresh = (result, w') ->
  let kept := Z.to_nat (Z.of_nat (List.length tb) + R) in
  backoffs self tb = firstn kept tb /\
  (attempts_made (trace w') <= S kept)%nat /\
  ((forall k, will_retry (_http self k rq) = true) ->
   attempts_made (trace w') = S kept /\ sleeps (trace w') = firstn kept tb) /\
  (R <= - Z.of_nat (List.length tb) -> attempts_made (trace w') = 1%nat).
Proof.
  intros HR Hneg Hreq kept.
  assert (Hb : backoffs self tb = firstn kept tb).
  { unfold backoffs, slice_to. rewrite HR.
    destruct (R <? 0) eqn:E; [|apply Z.ltb_ge in E; lia].
    f_equal. unfold kept. lia. }
  assert (Hlen : List.length (backoffs self tb) = kept).
  { rewrite Hb, length_firstn. unfold kept. lia. }
  destruct (request_from_fresh _ _ _ _ _ Hreq)
    as (j & Hj & _ & Hstop & _ & _ & _ & Hatt & Hsl & _).
  split; [exact Hb|]. split; [lia|]. split.
  - intros Hall. destruct Hstop as [H|H]; [|rewrite Hall in H; discriminate].
    split; [lia|]. rewrite Hsl. congruence.
  - intros Hle. assert (kept = 0%nat) by (unfold kept; lia). lia.
Qed.

Lemma slicing_by_negative_max_retries_witness :
  let self := FormBridgeClient.mk (-1) (scripted [] refused) in
  let run := _request self _RETRY_BACKOFFS rq0 fresh in
  _max_retries self < 0 /\
  attempts_made (trace (snd run)) = 3%nat /\
  sleeps (trace (snd run)) = [0.5; 1.0]%float.
Proof.
  intros self run.
  destruct (slicing_by_negative_max_retries self _RETRY_BACKOFFS rq0 (-1) (fst run) (snd run)
              eq_refl eq_refl eq_refl) as (_ & _ & Hall & _).
  destruct Hall as (Hatt & Hsl).
  - intros k. unfold self, scripted. simpl. now destruct k.
  - split; [reflexivity|]. split; [exact Hatt | exact Hsl].
Defined.

(** X4. An exception of the transport that is not a connection error or a
    timeout is never retried: the call ends at that attempt, whatever
    max_retries is, with a [FormBridgeError] "Unexpected error: <text>" that
    has no status code and is flagged as a connectivity error. *)
Theorem other_exception_not_retried (self : FormBridgeClient.t) (tb : list float)
    (rq : Request.t) (a : nat) (cls msg : string) (result : res pyval) (w' : world) :
  (a <= List.length (backoffs self tb))%nat ->
  (forall i, (i < a)%nat -> will_retry (_http self i rq) = true) ->
  _http self a rq = Failed (OtherError cls msg) ->
  _request self tb rq fresh = (result, w') ->
  result = Err (FormBridgeErr (FormBridgeError.mk
                  (PStr ("Unexpected error: " ++ msg)) None PNone true PNone)) /\
  attempts_made (trace w') = S a /\
  List.length (sleeps (trace w')) = a.
Proof.
  intros Ha Hbefore Hout Hreq.
  destruct (request_stops_at self tb rq a result w' Ha Hbefore) as (Hres & Hatt & Hsl);
    [rewrite Hout; reflexivity | exact Hreq |].
  rewrite Hout in Hres. split; [exact Hres|]. split; [exact Hatt|].
  rewrite Hsl, length_firstn.
  destruct (backoffs_prefix self tb) as (N & HN). rewrite HN, length_firstn in Ha. lia.
Qed.

Lemma other_exception_not_retried_witness :
  let self := FormBridgeClient.mk 3 (scripted [] read_error) in
  let run := _request self _RETRY_BACKOFFS rq0 fresh in
  attempts_made (trace (snd run)) = 1%nat /\
  exists e, fst run = Err (FormBridgeErr e) /\
            FormBridgeError.message e =
              PStr "Unexpected error: Connection reset by peer".
Proof.
  intros self run.
  destruct (other_exception_not_retried self _RETRY_BACKOFFS rq0 0
              "ReadError" "Connection reset by peer" (fst run) (snd run))
    as (Hres & Hatt & _).
  - apply Nat.le_0_l.
  - intros i Hi. exfalso. exact (Nat.nlt_0_r i Hi).
  - reflexivity.
  - reflexivity.
  - split; [exact Hatt|]. eexists. split; [exact Hres | reflexivity].
Defined.

(** A call ends at attempt [a] when it is reached and either its outcome is
    not retried or no backoff is left. *)
Lemma request_ends_at (self : FormBridgeClient.t) (tb : list float)
    (rq : Request.t) (a : nat) (result : res pyval) (w' : world) :
  (a <= List.length (backoffs self tb))%nat ->
  (forall i, (i < a)%nat -> will_retry (_http self i rq) = true) ->
  will_retry (_http self a rq) = false \/ a = List.length (backoffs self tb) ->
  _request self tb rq fresh = (result, w') ->
  result = settle (_http self a rq) /\ attempts_made (trace w') = S a.
Proof.
  intros Ha Hbefore Hend Hreq.
  destruct (request_from_fresh _ _ _ _ _ Hreq)
    as (j & Hj & Hall & Hstop & Hres & _ & _ & Hatt & _).
  assert (Hja : j = a).
  { destruct (Nat.lt_trichotomy j a) as [Hlt | [Heq | Hgt]]; [|exact Heq|].
    - destruct Hstop as [H|H]; [lia|]. rewrite (Hbefore j Hlt) in H. discriminate.
    - destruct Hend as [H|H]; [|lia]. rewrite (Hall a Hgt) in H. discriminate. }
  subst j. split; assumption.
Qed.

(** X5. A response that ends the call (its status is not retryable, or no
    backoff is left) and whose body is not JSON makes the call raise, also
    for a success status such as 200 or 204: the error is "Unexpected
    error: <decoder's text>", with no status code, no response data and
    is_connectivity_error True. *)
Theorem undecodable_body_raises (self : FormBridgeClient.t) (tb : list float)
    (rq : Request.t) (a : nat) (r : Response.t) (m : string)
    (result : res pyval) (w' : world) :
  (a <= List.length (backoffs self tb))%nat ->
  (forall i, (i < a)%nat -> will_retry (_http self i rq) = true) ->
  _http self a rq = Responded r ->
  retryable (Response.status_code r) = false \/ a = List.length (backoffs self tb) ->
  Response.body r = Undecodable m ->
  _request self tb rq fresh = (result, w') ->
  result = Err (FormBridgeErr (FormBridgeError.mk
                  (PStr ("Unexpected error: " ++ m)) None PNone true PNone)) /\
  attempts_made (trace w') = S a.
Proof.
  intros Ha Hbefore Hout Hend Hb Hreq.
  destruct (request_ends_at self tb rq a result w' Ha Hbefore) as (Hres & Hatt);
    [rewrite Hout; exact Hend | exact Hreq |].
  rewrite Hout, (settle_undecodable r m Hb) in Hres. split; assumption.
Qed.

(** X6. A retryable outcome with a backoff left never ends the call: when
    attempts 0 to a are all retryable (a retryable status whatever the body,
    even one that is not JSON, or a connection error) and a < len(backoffs),
    attempt a + 1 is made, after a sleep of table[a]. *)
Theorem retryable_outcome_is_retried (self : FormBridgeClient.t) (tb : list float)
    (rq : Request.t) (a : nat) (result : res pyval) (w' : world) :
  (a < List.length (backoffs self tb))%nat ->
  (forall i, (i <= a)%nat -> will_retry (_http self i rq) = true) ->
  _request self tb rq fresh = (result, w') ->
  (S a < attempts_made (trace w'))%nat /\
  nth_error (sleeps (trace w')) a = nth_error tb a /\
  exists b, nth_error tb a = Some b.
Proof.
  intros Ha Hretry Hreq.
  destruct (request_from_fresh _ _ _ _ _ Hreq)
    as (j & Hj & _ & Hstop & _ & _ & _ & Hatt & Hsl & _).
  assert (Haj : (a < j)%nat).
  { destruct (Nat.le_gt_cases j a) as [Hle|Hgt]; [|exact Hgt].
    destruct Hstop as [H|H]; [lia|]. rewrite (Hretry j Hle) in H. discriminate. }
  split; [lia|]. split.
  - rewrite Hsl, nth_error_firstn. apply Nat.ltb_lt in Haj. now rewrite Haj.
  - destruct (backoffs_prefix self tb) as (N & HN).
    rewrite HN, length_firstn in Ha.
    destruct (nth_error tb a) as [b|] eqn:E; [eauto|].
    apply nth_error_None in E. lia.
Qed.

(** X7. A call returns only the decoded body of its last response, and only
    when that response has a status below 400: it never returns after a
    transport exception, for a status of 400 or more, or anything but that
    body. *)
Theorem returns_only_success_body (self : FormBridgeClient.t) (tb : list float)
    (rq : Request.t) (data : pyval) (w' : world) :
  _request self tb rq fresh = (Ok data, w') ->
  exists r,
    _http self (attempts_made (trace w') - 1)%nat rq = Responded r /\
    Response.status_code r < 400 /\
    Response.body r = Decoded data.
Proof.
  intros Hreq.
  destruct (request_from_fresh _ _ _ _ _ Hreq)
    as (j & _ & _ & _ & Hres & _ & _ & Hatt & _).
  rewrite Hatt. replace (S j - 1)%nat with j by lia.
  unfold settle in Hres. destruct (_http self j rq) as [r|te]; [|discriminate].
  exists r. split; [reflexivity|].
  destruct (decode r) as [d|exc] eqn:Hd; [|discriminate].
  injection Hres as ->. now apply decode_returns.
Qed.

(** X8. An error that is not flagged as a connectivity error is always read
    from the last response: it carries that response's status code, which is
    at least 400, the [message] of the body's [error] object or "HTTP
    <status>", its [type] or None, and the whole decoded body; for a
    retryable status it is raised only once all backoffs are used. *)
Theorem api_error_reports_last_response (self : FormBridgeClient.t)
    (tb : list float) (rq : Request.t) (e : FormBridgeError.t) (w' : world) :
  _request self tb rq fresh = (Err (FormBridgeErr e), w') ->
  FormBridgeError.is_connectivity_error e = false ->
  exists r data,
    _http self (attempts_made (trace w') - 1)%nat rq = Responded r /\
    Response.body r = Decoded data /\
    400 <= Response.status_code r /\
    FormBridgeError.status_code e = Some (Response.status_code r) /\
    FormBridgeError.message e =
      dict_get (error_info data) "message"
        (PStr ("HTTP " ++ str_of_int (Response.status_code r))) /\
    FormBridgeError.error_type e = dict_get (error_info data) "type" PNone /\
    FormBridgeError.response_data e = data /\
    (retryable (Response.status_code r) = true ->
     attempts_made (trace w') = S (List.length (backoffs self tb))).
Proof.
  intros Hreq Hflag.
  destruct (request_from_fresh _ _ _ _ _ Hreq)
    as (j & _ & _ & Hstop & Hres & _ & _ & Hatt & _).
  rewrite Hatt. replace (S j - 1)%nat with j by lia.
  unfold settle in Hres. destruct (_http self j rq) as [r|te] eqn:Hout.
  - destruct (decode r) as [d|exc] eqn:Hd; [discriminate|].
    assert (Hw : wrapped exc = FormBridgeErr e) by congruence.
    destruct exc as [t|m|m|m|m|e0]; cbn in Hw;
      try (injection Hw as Hw; subst e; discriminate).
    injection Hw as ->.
    destruct (decode_api_error r e Hd) as (data & Hb & Hs & He).
    exists r, data. subst e. unfold FormBridgeError.api.
    cbn [FormBridgeError.status_code FormBridgeError.message
         FormBridgeError.error_type FormBridgeError.response_data].
    repeat split; try assumption.
    intros Hr. destruct Hstop as [H|H]; [now rewrite H|].
    simpl in H. congruence.
  - assert (Hw : wrapped (Transport te) = FormBridgeErr e) by congruence.
    destruct te; cbn in Hw; injection Hw as Hw; subst e; discriminate.
Qed.

Lemma undecodable_body_raises_witness :
  let self := FormBridgeClient.mk 3 (scripted [] no_content) in
  let run := _request self _RETRY_BACKOFFS rq0 fresh in
  retryable 204 = false /\
  attempts_made (trace (snd run)) = 1%nat /\
  exists e, fst run = Err (FormBridgeErr e) /\
            FormBridgeError.is_connectivity_error e = true.
Proof.
  intros self run.
  destruct (undecodable_body_raises self _RETRY_BACKOFFS rq0 0
              (Response.mk 204 (Undecodable "Expecting value: line 1 column 1 (char 0)"))
              "Expecting value: line 1 column 1 (char 0)" (fst run) (snd run))
    as (Hres & Hatt).
  - apply Nat.le_0_l.
  - intros i Hi. exfalso. exact (Nat.nlt_0_r i Hi).
  - reflexivity.
  - left. reflexivity.
  - reflexivity.
  - reflexivity.
  - split; [reflexivity|]. split; [exact Hatt|].
    eexists. split; [exact Hres | reflexivity].
Defined.

Lemma retryable_outcome_is_retried_witness :
  let self := FormBridgeClient.mk 3 (scripted [bad_gateway_html] ok_s1) in
  let run := _request self _RETRY_BACKOFFS rq0 fresh in
  (1 < attempts_made (trace (snd run)))%nat /\
  nth_error (sleeps (trace (snd run))) 0 = Some 0.5%float /\
  fst run = Ok s1_body.
Proof.
  intros self run.
  destruct (retryable_outcome_is_retried self _RETRY_BACKOFFS rq0 0 (fst run) (snd run))
    as (Hatt & Hsl & _).
  - simpl. apply Nat.lt_0_succ.
  - intros i Hi. apply Nat.le_0_r in Hi. subst i. reflexivity.
  - reflexivity.
  - split; [exact Hatt|]. split; [exact Hsl | reflexivity].
Defined.

Lemma returns_only_success_body_witness :
  let self := FormBridgeClient.mk 3 (scripted [rate_limited] ok_s1) in
  let run := _request self _RETRY_BACKOFFS rq0 fresh in
  fst run = Ok s1_body /\
  exists r, _http self 1%nat rq0 = Responded r /\ Response.status_code r < 400.
Proof.
  intros self run.
  destruct (returns_only_success_body self _RETRY_BACKOFFS rq0 s1_body (snd run) eq_refl)
    as (r & Hr & Hs & _).
  split; [reflexivity|]. exists r. split; [exact Hr | exact Hs].
Defined.

Lemma api_error_reports_last_response_witness :
  let self := FormBridgeClient.mk 3 (scripted [rate_limited; rate_limited; rate_limited]
                                       bad_gateway) in
  let run := _request self _RETRY_BACKOFFS rq0 fresh in
  exists e, fst run = Err (FormBridgeErr e) /\
            FormBridgeError.status_code e = Some 502 /\
            FormBridgeError.message e = PStr "down".
Proof.
  intros self run.
  pose (e := FormBridgeError.api (PStr "down") 502 (PStr "bad_gateway")
               (PDict [("ok", PBool false);
                       ("error", PDict [("type", PStr "bad_gateway");
                                        ("message", PStr "down")])])).
  destruct (api_error_reports_last_response self _RETRY_BACKOFFS rq0 e (snd run)
              eq_refl eq_refl)
    as (r & data & Hr & Hb & _ & Hs & Hm & _).
  exists e. split; [reflexivity|]. split; reflexivity.
Defined.

(** ** Further properties of the operations and the typed results *)

Lemma submission_from_non_object (data : pyval) :
  is_dict data = false ->
  Submission.from_response data =
  Err (AttributeError ("'" ++ type_name data ++ "' object has no attribute 'get'")).
Proof. destruct data; intros H; try discriminate; reflexivity. Qed.

Lemma fields_result_from_non_object (data : pyval) :
  is_dict data = false ->
  FieldsResult.from_response data =
  Err (AttributeError ("'" ++ type_name data ++ "' object has no attribute 'get'")).
Proof. destruct data; intros H; try discriminate; reflexivity. Qed.

(** X9. When the request succeeds with a JSON body that is not an object (a
    list, a string, a number, null), every operation raises a bare
    AttributeError "'<type>' object has no attribute 'get'" from the response
    parser, not a [FormBridgeError]. *)
Theorem non_object_body_escapes_as_AttributeError (self : FormBridgeClient.t)
    (tb : list float) (intake_id submission_id resume_token : string)
    (fields : option dict) (new_fields : dict) (actor : option Actor.t)
    (idempotency_key : option string) (data : pyval) (w w' : world) :
  is_dict data = false ->
  let raised := AttributeError ("'" ++ type_name data ++ "' object has no attribute 'get'") in
  (_request self tb (create_request intake_id fields actor idempotency_key) w
     = (Ok data, w') ->
   create_submission self tb intake_id fields actor idempotency_key w
     = (Err raised, w')) /\
  (_request self tb (get_request intake_id submission_id) w = (Ok data, w') ->
   get_submission self tb intake_id submission_id w = (Err raised, w')) /\
  (_request self tb (set_fields_request intake_id submission_id resume_token
                       new_fields actor) w = (Ok data, w') ->
   set_fields self tb intake_id submission_id resume_token new_fields actor w
     = (Err raised, w')) /\
  (_request self tb (submit_request intake_id submission_id resume_token actor) w
     = (Ok data, w') ->
   submit self tb intake_id submission_id resume_token actor w = (Err raised, w')).
Proof.
  intros Hd raised. repeat split; intros Hreq.
  - unfold create_submission. unfold create_request in Hreq. rewrite Hreq.
    rewrite (submission_from_non_object data Hd). reflexivity.
  - unfold get_submission. unfold get_request in Hreq. rewrite Hreq.
    rewrite (submission_from_non_object data Hd). reflexivity.
  - unfold set_fields. unfold set_fields_request in Hreq. rewrite Hreq.
    rewrite (fields_result_from_non_object data Hd). reflexivity.
  - unfold submit. unfold submit_request in Hreq. rewrite Hreq.
    rewrite (submission_from_non_object data Hd). reflexivity.
Qed.

Lemma non_object_body_escapes_as_AttributeError_witness :
  let self := FormBridgeClient.mk 3 (scripted [] ok_empty_list) in
  is_dict (PList []) = false /\
  fst (get_submission self _RETRY_BACKOFFS "v" "s1" fresh)
  = Err (AttributeError "'list' object has no attribute 'get'").
Proof.
  intros self.
  destruct (non_object_body_escapes_as_AttributeError self _RETRY_BACKOFFS
              "v" "s1" "" None [] None None (PList []) fresh
              (snd (get_submission self _RETRY_BACKOFFS "v" "s1" fresh)) eq_refl)
    as (_ & Hget & _).
  split; [reflexivity|]. rewrite (Hget eq_refl). reflexivity.
Defined.

(** X10. Parsing a JSON object into a Submission never fails and keeps the
    body as [raw]. When [metadata] is an object, created_at and updated_at
    are read from it alone, so a top-level [createdAt] is ignored and a
    missing one gives None; when [metadata] is absent or not an object they
    are read from the top level. *)
Theorem submission_timestamps (d : dict) :
  exists sub,
    Submission.from_response (PDict d) = Ok sub /\
    Submission.raw sub = PDict d /\
    (forall m, lookup "metadata" d = Some (PDict m) ->
       Submission.created_at sub = dict_get m "createdAt" PNone /\
       Submission.updated_at sub = dict_get m "updatedAt" PNone) /\
    ((forall m, lookup "metadata" d <> Some (PDict m)) ->
       Submission.created_at sub = dict_get d "createdAt" PNone /\
       Submission.updated_at sub = dict_get d "updatedAt" PNone).
Proof.
  eexists. split; [apply from_response_dict|]. split; [reflexivity|].
  cbn [Submission.created_at Submission.updated_at]. unfold timestamp, dict_get.
  split.
  - intros m ->. split; reflexivity.
  - intros Hno. destruct (lookup "metadata" d) as [v|]; [|split; reflexivity].
    destruct v; try (split; reflexivity).
    exfalso. eapply Hno. reflexivity.
Qed.

(** X11. create_submission keeps an intake identifier the server did send:
    when the body's [intakeId] is not empty, the Submission returned is
    exactly the parsed response, also when that identifier differs from the
    caller's intake_id. *)
Theorem create_keeps_server_intake_id (self : FormBridgeClient.t) (tb : list float)
    (intake_id : string) (fields : option dict) (actor : option Actor.t)
    (idempotency_key : option string) (w w' : world) (d : dict) (v : pyval) :
  _request self tb (create_request intake_id fields actor idempotency_key) w
    = (Ok (PDict d), w') ->
  lookup "intakeId" d = Some v -> truthy v = true ->
  exists sub,
    Submission.from_response (PDict d) = Ok sub /\
    create_submission self tb intake_id fields actor idempotency_key w = (Ok sub, w') /\
    Submission.intake_id sub = v.
Proof.
  intros Hreq Hv Ht. eexists. split; [apply from_response_dict|].
  assert (Hget : dict_get d "intakeId" (PStr "") = v) by (unfold dict_get; now rewrite Hv).
  split; [|exact Hget].
  unfold create_submission. unfold create_request in Hreq. rewrite Hreq.
  rewrite from_response_dict. cbn [bind Submission.intake_id].
  rewrite Hget, Ht. reflexivity.
Qed.

Lemma create_keeps_server_intake_id_witness :
  let self := FormBridgeClient.mk 3 (scripted [] created_elsewhere) in
  let run := create_submission self _RETRY_BACKOFFS "vendor" None None None fresh in
  exists sub, fst run = Ok sub /\ Submission.intake_id sub = PStr "vendor-v2".
Proof.
  intros self run.
  destruct (create_keeps_server_intake_id self _RETRY_BACKOFFS "vendor" None None None
              fresh (snd run)
              [("submissionId", PStr "sub_1"); ("intakeId", PStr "vendor-v2")]
              (PStr "vendor-v2") eq_refl eq_refl eq_refl)
    as (sub & _ & Hrun & Hid).
  exists sub. split; [unfold run; rewrite Hrun; reflexivity | exact Hid].
Defined.

(** X12. Only create_submission fills in a missing intake identifier:
    get_submission and submit return the parsed response as it is, so when
    the body has no [intakeId] their Submission's intake_id is the empty
    string, not the intake_id the caller passed. *)
Theorem get_and_submit_do_not_backfill (self : FormBridgeClient.t) (tb : list float)
    (intake_id submission_id resume_token : string) (actor : option Actor.t)
    (w w' : world) (d : dict) :
  lookup "intakeId" d = None ->
  (_request self tb (get_request intake_id submission_id) w = (Ok (PDict d), w') ->
   exists sub, get_submission self tb intake_id submission_id w = (Ok sub, w') /\
               Submission.intake_id sub = PStr "" /\ Submission.raw sub = PDict d) /\
  (_request self tb (submit_request intake_id submission_id resume_token actor) w
     = (Ok (PDict d), w') ->
   exists sub, submit self tb intake_id submission_id resume_token actor w
               = (Ok sub, w') /\
               Submission.intake_id sub = PStr "" /\ Submission.raw sub = PDict d).
Proof.
  intros Hno.
  assert (Hget : dict_get d "intakeId" (PStr "") = PStr "")
    by (unfold dict_get; now rewrite Hno).
  split; intros Hreq; eexists.
  - unfold get_submission. unfold get_request in Hreq. rewrite Hreq.
    rewrite from_response_dict. split; [reflexivity|]. split; [exact Hget | reflexivity].
  - unfold submit. unfold submit_request in Hreq. rewrite Hreq.
    rewrite from_response_dict. split; [reflexivity|]. split; [exact Hget | reflexivity].
Qed.

Lemma get_and_submit_do_not_backfill_witness :
  let self := FormBridgeClient.mk 3 (scripted [] ok_s1) in
  let run := get_submission self _RETRY_BACKOFFS "v" "s1" fresh in
  lookup "intakeId" [("submissionId", PStr "s1")] = None /\
  exists sub, fst run = Ok sub /\ Submission.intake_id sub = PStr "".
Proof.
  intros self run.
  destruct (get_and_submit_do_not_backfill self _RETRY_BACKOFFS "v" "s1" "" None
              fresh (snd run) [("submissionId", PStr "s1")] eq_refl)
    as (Hget & _).
  destruct (Hget eq_refl) as (sub & Hrun & Hid & _).
  split; [reflexivity|]. exists sub.
  split; [unfold run; rewrite Hrun; reflexivity | exact Hid].
Defined.

(** ** Further properties of the request bodies *)

(** X13. The body create_submission sends has a [fields] entry exactly when
    fields is a non-empty dict (an empty dict is left out like None), an
    [actor] entry exactly when an actor is given, an [idempotencyKey] entry
    exactly when the key is a non-empty string, and no other entry; with
    nothing given the body is the empty object. *)
Theorem create_body_entries (fields : option dict) (actor : option Actor.t)
    (idempotency_key : option string) :
  let body := create_body fields actor idempotency_key in
  lookup "fields" body =
    match fields with
    | Some (x :: f) => Some (PDict (x :: f))
    | _ => None
    end /\
  lookup "actor" body =
    match actor with
    | Some a => Some (_serialize_actor (Some a))
    | None => None
    end /\
  lookup "idempotencyKey" body =
    match idempotency_key with
    | Some (String c k) => Some (PStr (String c k))
    | _ => None
    end /\
  (forall key, In key (keys body) ->
     key = "fields" \/ key = "actor" \/ key = "idempotencyKey") /\
  NoDup (keys body).
Proof.
  intros body. unfold body, create_body.
  destruct fields as [[|x f]|]; destruct actor as [a|];
    destruct idempotency_key as [[|c k]|]; cbn;
    (repeat split; [intros key Hin; cbn in Hin; intuition auto
                   | repeat constructor; cbn; intuition discriminate]).
Qed.

(** X14. The body of set_fields always has [resumeToken] and [fields], the
    latter also when the dict of fields is empty; the body of submit has
    [resumeToken] and never [fields]; both have [actor] exactly when an actor
    is given. *)
Theorem set_fields_and_submit_bodies (resume_token : string) (fields : dict)
    (actor : option Actor.t) :
  let sent := match actor with
              | Some a => Some (_serialize_actor (Some a))
              | None => None
              end in
  lookup "resumeToken" (set_fields_body resume_token fields actor)
    = Some (PStr resume_token) /\
  lookup "fields" (set_fields_body resume_token fields actor) = Some (PDict fields) /\
  lookup "actor" (set_fields_body resume_token fields actor) = sent /\
  lookup "resumeToken" (submit_body resume_token actor) = Some (PStr resume_token) /\
  lookup "fields" (submit_body resume_token actor) = None /\
  lookup "actor" (submit_body resume_token actor) = sent.
Proof.
  intros sent. unfold sent, set_fields_body, submit_body.
  destruct actor as [a|]; cbn; repeat split.
Qed.

(** X15. A serialized actor is an object with [kind] and [id], and with
    [name] exactly when the actor's name is not None: an empty name is sent
    as the empty string. No actor serializes to None. *)
Theorem serialized_actor_entries (a : Actor.t) :
  _serialize_actor None = PNone /\
  exists d,
    _serialize_actor (Some a) = PDict d /\
    lookup "kind" d = Some (PStr (Actor.kind a)) /\
    lookup "id" d = Some (PStr (Actor.id a)) /\
    lookup "name" d = option_map PStr (Actor.name a) /\
    keys d = match Actor.name a with
             | Some _ => ["kind"; "id"; "name"]
             | None => ["kind"; "id"]
             end.
Proof.
  split; [reflexivity|]. unfold _serialize_actor.
  destruct (Actor.name a) as [n|]; eexists; repeat split.
Qed.

(** ** Further properties of the constructor *)

Lemma rstrip_slash_removes_slashes (s : string) :
  exists k, s = rstrip_slash s ++ slashes k.
Proof.
  induction s as [|c s IH]; [exists 0%nat; reflexivity|].
  destruct IH as (k & Hk). simpl.
  destruct (rstrip_slash s) as [|c' r] eqn:Hr.
  - simpl in Hk. destruct (Ascii.eqb c "/") eqn:Hc.
    + apply Ascii.eqb_eq in Hc. subst c. exists (S k). simpl. now rewrite Hk.
    + exists k. simpl. now rewrite Hk.
  - exists k. simpl. simpl in Hk. now rewrite <- Hk.
Qed.

Lemma rstrip_slash_no_trailing_slash (s : string) :
  ends_with_slash (rstrip_slash s) = false.
Proof.
  induction s as [|c s IH]; [reflexivity|]. simpl.
  destruct (rstrip_slash s) as [|c' r] eqn:Hr.
  - destruct (Ascii.eqb c "/") eqn:Hc; [reflexivity|]. simpl. exact Hc.
  - exact IH.
Qed.

Lemma rstrip_slash_fixpoint (s : string) :
  ends_with_slash s = false -> rstrip_slash s = s.
Proof.
  induction s as [|c s IH]; [reflexivity|]. simpl.
  destruct s as [|c' s'].
  - simpl. intros ->. reflexivity.
  - intros H. rewrite (IH H). reflexivity.
Qed.

Section Constructor.
Variable environ : string -> option string.
Variable float_of_str : string -> option float.

(** X16. The base URL a client is built with never ends with a slash; it is
    the url argument when that is a non-empty string, otherwise the
    FORMBRIDGE_URL variable, otherwise http://localhost:3000, with all of its
    trailing slashes removed and nothing else changed (a URL made of slashes
    only becomes the empty string). Stripping is idempotent. *)
Theorem constructed_url (url api_key : option string) (timeout : option float)
    (max_retries : Z) (c : Construction.t) :
  Construction.__init__ environ float_of_str url api_key timeout max_retries = Some c ->
  let given :=
    match url with
    | Some (String a u) => String a u
    | _ => match environ "FORMBRIDGE_URL" with
           | Some v => v
           | None => "http://localhost:3000"
           end
    end in
  ends_with_slash (Construction._url c) = false /\
  (exists k, given = Construction._url c ++ slashes k) /\
  rstrip_slash (Construction._url c) = Construction._url c /\
  (ends_with_slash given = false -> Construction._url c = given).
Proof.
  intros H given. unfold Construction.__init__ in H.
  destruct (match timeout with
            | Some t => Some t
            | None => match environ "FORMBRIDGE_TIMEOUT" with
                      | Some raw => float_of_str raw
                      | None => Some _DEFAULT_TIMEOUT
                      end
            end) as [t|]; [|discriminate].
  injection H as <-. cbn [Construction._url].
  assert (Hg : str_or (match url with Some u => u | None => "" end)
                 (Construction.environ_get environ "FORMBRIDGE_URL" _DEFAULT_URL) = given).
  { unfold given, str_or, Construction.environ_get, _DEFAULT_URL.
    destruct url as [[|a u]|]; reflexivity. }
  rewrite Hg. split; [apply rstrip_slash_no_trailing_slash|].
  split; [apply rstrip_slash_removes_slashes|].
  split; [apply rstrip_slash_fixpoint, rstrip_slash_no_trailing_slash|].
  apply rstrip_slash_fixpoint.
Qed.

(** X17. The headers of a client are Content-Type: application/json, followed
    by Authorization: Bearer <key> exactly when the key is not empty, where
    the key is the api_key argument if that is a non-empty string and the
    FORMBRIDGE_API_KEY variable (or the empty string) otherwise. *)
Theorem constructed_headers (url api_key : option string) (timeout : option float)
    (max_retries : Z) (c : Construction.t) :
  Construction.__init__ environ float_of_str url api_key timeout max_retries = Some c ->
  let key :=
    match api_key with
    | Some (String a k) => String a k
    | _ => match environ "FORMBRIDGE_API_KEY" with
           | Some v => v
           | None => ""
           end
    end in
  Construction._api_key c = key /\
  Construction._max_retries c = max_retries /\
  (key = "" -> Construction.headers c = [("Content-Type", "application/json")]) /\
  (key <> "" ->
   Construction.headers c =
   [("Content-Type", "application/json");
    ("Authorization", String.append "Bearer " key)]).
Proof.
  intros H key. unfold Construction.__init__ in H.
  destruct (match timeout with
            | Some t => Some t
            | None => match environ "FORMBRIDGE_TIMEOUT" with
                      | Some raw => float_of_str raw
                      | None => Some _DEFAULT_TIMEOUT
                      end
            end) as [t|]; [|discriminate].
  injection H as <-.
  cbn [Construction._api_key Construction._max_retries Construction.headers].
  assert (Hk : str_or (match api_key with Some k => k | None => "" end)
                 (Construction.environ_get environ "FORMBRIDGE_API_KEY" "") = key).
  { unfold key, str_or, Construction.environ_get.
    destruct api_key as [[|a k]|]; reflexivity. }
  rewrite Hk. split; [reflexivity|]. split; [reflexivity|].
  destruct (String.eqb key "") eqn:E.
  - apply String.eqb_eq in E. split; [reflexivity | congruence].
  - apply String.eqb_neq in E. split; [congruence | reflexivity].
Qed.

End Constructor.

Lemma constructed_url_witness :
  exists c,
    Construction.__init__ example_environ no_float None None None 3 = Some c /\
    Construction._url c = "http://api.example.com" /\
    ends_with_slash (Construction._url c) = false.
Proof.
  eexists. split; [reflexivity|]. split; [reflexivity|].
  exact (proj1 (constructed_url example_environ no_float None None None 3 _ eq_refl)).
Defined.

Lemma constructed_headers_witness :
  exists c,
    Construction.__init__ example_environ no_float None (Some "") None 3 = Some c /\
    Construction.headers c =
    [("Content-Type", "application/json"); ("Authorization", "Bearer test-key")].
Proof.
  eexists. split; [reflexivity|].
  destruct (constructed_headers example_environ no_float None (Some "") None 3 _ eq_refl)
    as (_ & _ & _ & Hauth).
  apply Hauth. discriminate.
Defined.

(** X19. With the default table a call sleeps 0, 0.5, 1.5 or 3.5 seconds in
    all, whatever max_retries is and whatever the transport answers: the
    backoffs add at most 3.5 seconds to a call. *)
Theorem total_sleep_bounded (self : FormBridgeClient.t) (rq : Request.t)
    (result : res pyval) (w' : world) :
  _request self _RETRY_BACKOFFS rq fresh = (result, w') ->
  (total_sleep (trace w') = 0%float \/ total_sleep (trace w') = 0.5%float \/
   total_sleep (trace w') = 1.5%float \/ total_sleep (trace w') = 3.5%float) /\
  PrimFloat.leb (total_sleep (trace w')) 3.5%float = true /\
  (attempts_made (trace w') <= 4)%nat.
Proof.
  intros Hreq.
  destruct (request_from_fresh _ _ _ _ _ Hreq)
    as (j & Hj & _ & _ & _ & _ & _ & Hatt & Hsl & _).
  assert (Hj3 : (j <= 3)%nat).
  { destruct (backoffs_prefix self _RETRY_BACKOFFS) as (N & HN).
    rewrite HN, length_firstn in Hj. simpl List.length in Hj. lia. }
  unfold total_sleep. rewrite Hsl, Hatt.
  destruct j as [|[|[|[|j]]]]; try lia; cbn;
    (split; [tauto | split; [reflexivity | lia]]).
Qed.

Lemma total_sleep_bounded_witness :
  let self := FormBridgeClient.mk 7 (scripted [] bad_gateway) in
  let run := _request self _RETRY_BACKOFFS rq0 fresh in
  total_sleep (trace (snd run)) = 3.5%float.
Proof.
  intros self run.
  destruct (total_sleep_bounded self rq0 (fst run) (snd run) eq_refl)
    as (_ & _ & _).
  reflexivity.
Defined.
